(** * django_comments_xtd: the template tags of templatetags/comments_xtd.py

  A shallow embedding of the three template tags
  [get_xtdcomment_count], [render_last_xtdcomments] and
  [get_last_xtdcomments], of the helper [_get_content_types] and of the
  three node classes they build, followed by the properties of the
  specification that concern them.

  Python exceptions are values of [exn]; code that may raise runs in the
  monad [Parse], which also records the content-type lookups sent to the
  ORM, in the order they are made. *)

From Stdlib Require Import ZArith Ascii String List Lia.
From stdpp Require Import base option list gmap strings sorting.

Local Open Scope string_scope.
Local Open Scope list_scope.

(** ** Exceptions and results *)

(** The exception classes that the code of the module can raise or let
  through. [TemplateSyntaxError] and [TemplateDoesNotExist] belong to the
  template engine, [DoesNotExist] is [ContentType.DoesNotExist], the
  others are Python's own. *)
Inductive exn : Type :=
| NameError (name : string)
| IndexError
| ValueError
| AssertionError
| DoesNotExist
| TemplateSyntaxError (msg : string)
| TemplateDoesNotExist (names : list string).

Inductive result (A : Type) : Type :=
| Ok (a : A)
| Raise (e : exn).
Arguments Ok {A} a.
Arguments Raise {A} e.

Definition is_Ok {A} (r : result A) : bool :=
match r with Ok _ => true | Raise _ => false end.

(** A query sent to the content-type table: [ContentType.objects.get
  (app_label=app, model=model)]. *)
Record OrmQuery : Type := ContentTypeGet { q_app_label : string; q_model : string }.

(** ** The monad of the parsing code *)

Module ParseMonad.

Definition Parse (A : Type) : Type := (list OrmQuery * result A)%type.

Definition ret {A} (a : A) : Parse A := ([], Ok a).

Definition raise {A} (e : exn) : Parse A := ([], Raise e).

Definition tell (q : OrmQuery) : Parse unit := ([q], Ok tt).

Definition bind {A B} (m : Parse A) (k : A -> Parse B) : Parse B :=
  match m with
  | (l, Ok a) => let '(l', r) := k a in (l ++ l', r)
  | (l, Raise e) => (l, Raise e)
  end.

Definition lift {A} (r : result A) : Parse A := ([], r).

(** [try: body / except E: handler]. The handler is asked whether it has a
    clause for the exception; an exception without a clause goes on
    upwards. *)
Definition try_except {A} (body : Parse A) (handler : exn -> option (Parse A))
  : Parse A :=
  match body with
  | (l, Ok a) => (l, Ok a)
  | (l, Raise e) =>
      match handler e with
      | Some h => let '(l', r) := h in (l ++ l', r)
      | None => (l, Raise e)
      end
  end.

Definition queries {A} (m : Parse A) : list OrmQuery := fst m.
Definition outcome {A} (m : Parse A) : result A := snd m.

End ParseMonad.
Import ParseMonad.

Declare Scope parse_scope.
Delimit Scope parse_scope with parse.
Notation "x <- m ;; k" := (bind m (fun x => k))
(at level 100, m at next level, right associativity) : parse_scope.
Notation "m ;;; k" := (bind m (fun _ => k))
(at level 100, right associativity) : parse_scope.
Local Open Scope parse_scope.

(** ** Python primitives used by the module *)

Module Py.

(** Whitespace for [str.split()] without an argument, within ASCII: tab,
    line feed, vertical tab, form feed, carriage return, the four
    separators 0x1c-0x1f and the space. *)
Definition is_space (c : ascii) : bool :=
  let n := nat_of_ascii c in
  (((9 <=? n) && (n <=? 13)) || ((28 <=? n) && (n <=? 31)) || (n =? 32))%nat.

Definition flush (cur : string) : list string :=
  match cur with
  | EmptyString => []
  | _ => [cur]
  end.

(** [s.split()]: the maximal runs of characters that are not whitespace;
    [cur] is the run being read. *)
Fixpoint split_go (cur : string) (s : string) : list string :=
  match s with
  | EmptyString => flush cur
  | String c s' =>
      if is_space c then flush cur ++ split_go EmptyString s'
      else split_go (cur +:+ String c EmptyString) s'
  end.

Definition split (s : string) : list string := split_go EmptyString s.

(** [s.split(sep)] for a separator of one character: one more part than
    there are separators, empty parts included. *)
Fixpoint split_on (sep : ascii) (s : string) : list string :=
  match s with
  | EmptyString => [EmptyString]
  | String c s' =>
      if Ascii.eqb c sep then EmptyString :: split_on sep s'
      else
        match split_on sep s' with
        | part :: parts => String c part :: parts
        | [] => [String c EmptyString]
        end
  end.

(** [a, b = parts]: unpacking into two names raises ValueError unless
    there are exactly two parts. *)
Definition unpack2 (parts : list string) : result (string * string) :=
  match parts with
  | [a; b] => Ok (a, b)
  | _ => Raise ValueError
  end.

Definition is_digit (c : ascii) : bool :=
  let n := nat_of_ascii c in ((48 <=? n) && (n <=? 57))%nat.

Fixpoint digits_value (acc : Z) (s : string) : option Z :=
  match s with
  | EmptyString => Some acc
  | String c s' =>
      if is_digit c
      then digits_value (10 * acc + (Z.of_nat (nat_of_ascii c) - 48))%Z s'
      else None
  end.

Fixpoint lstrip (s : string) : string :=
  match s with
  | String c s' => if is_space c then lstrip s' else s
  | EmptyString => EmptyString
  end.

Definition strip (s : string) : string :=
  String.rev (lstrip (String.rev (lstrip s))).

Definition unsigned_int (s : string) : result Z :=
  match s with
  | EmptyString => Raise ValueError
  | _ => match digits_value 0%Z s with
         | Some n => Ok n
         | None => Raise ValueError
         end
  end.

(** [int(s)] in base ten: surrounding whitespace, one optional sign, at
    least one decimal digit; anything else is a ValueError. Digit
    grouping with underscores (Python 3.6 and later), digits outside
    ASCII and the limit of 4300 digits (Python 3.11) are not part of the
    model; statements that depend on what [int] does with a count are made
    for counts on which the model and every version agree. *)
Definition int (s : string) : result Z :=
  match strip s with
  | String "-" d =>
      match unsigned_int d with Ok n => Ok (- n)%Z | Raise e => Raise e end
  | String "+" d => unsigned_int d
  | d => unsigned_int d
  end.

(** ['%r' % s] for a string without quotes, backslashes or unprintable
    characters, which is what tag names are. *)
Definition repr (s : string) : string := "'" +:+ s +:+ "'".

(** [xs[i]] *)
Definition index {A} (xs : list A) (i : nat) : result A :=
  match xs !! i with
  | Some x => Ok x
  | None => Raise IndexError
  end.

(** [''.join(strs)] *)
Definition join_empty (strs : list string) : string :=
  foldr String.append EmptyString strs.

End Py.

(** ** The host framework: content types, comments, querysets, contexts *)

Module Django.

(** A row of the content-type table. The table is keyed by the pair
    (app_label, model), which the framework declares unique. *)
Record ContentType : Type := mkContentType {
  ct_pk : Z;
  app_label : string;
  model : string
}.

(** The comment record: content type reference, free-text body, ordering
    timestamp. *)
Record XtdComment : Type := mkXtdComment {
  comment_pk : Z;
  content_type : ContentType;
  comment : string;
  submit_date : Z
}.

(** [ContentType.objects.get(app_label=app, model=model)]: one query,
    answered by the row or by [ContentType.DoesNotExist]. *)
Definition ContentType_objects_get (registry : gmap (string * string) Z)
    (app mdl : string) : Parse ContentType :=
  tell (ContentTypeGet app mdl) ;;;
  match registry !! (app, mdl) with
  | Some pk => ret (mkContentType pk app mdl)
  | None => raise DoesNotExist
  end.

(** A lazy queryset over the comment table: the content types it is
    filtered by and the upper limit of the slice taken of it, if any.
    Nothing is read from the database before the queryset is counted or
    iterated. *)
Record QuerySet : Type := mkQuerySet {
  qs_content_types : list ContentType;
  qs_stop : option Z
}.

(** [qs[:stop]] on a queryset not yet sliced. The framework refuses a
    negative limit with an assertion. *)
Definition QuerySet_slice_to (qs : QuerySet) (stop : Z) : result QuerySet :=
  if (stop <? 0)%Z then Raise AssertionError
  else Ok (mkQuerySet (qs_content_types qs) (Some stop)).

(** [content_type__in=content_types]: the comment's foreign key is one of
    the primary keys of the given rows. *)
Definition content_type_in (cts : list ContentType) (c : XtdComment) : bool :=
  bool_decide (ct_pk (content_type c) ∈ ct_pk <$> cts).

(** [a] comes before [b] when it is at least as recent. *)
Definition more_recent (a b : XtdComment) : Prop :=
  (submit_date b ≤ submit_date a)%Z.

#[global] Instance more_recent_dec : RelDecision more_recent.
Proof. intros a b. unfold more_recent. apply _. Defined.

Definition most_recent_first (cs : list XtdComment) : list XtdComment :=
  merge_sort more_recent cs.

Definition limit (stop : option Z) (cs : list XtdComment) : list XtdComment :=
  match stop with
  | Some n => take (Z.to_nat n) cs
  | None => cs
  end.

(** The rows a queryset yields when it is run against the comment table
    [db]. *)
Definition QuerySet_iter (db : list XtdComment) (qs : QuerySet) : list XtdComment :=
  limit (qs_stop qs)
    (most_recent_first (filter (fun c => content_type_in (qs_content_types qs) c) db)).

(** [qs.count()] *)
Definition QuerySet_count (db : list XtdComment) (qs : QuerySet) : Z :=
  Z.of_nat (length (QuerySet_iter db qs)).

(** Values a template context holds in this module. *)
Inductive value : Type :=
  | VInt (n : Z)
  | VStr (s : string)
  | VComment (c : XtdComment)
  | VQuerySet (qs : QuerySet).

(** A template context is a stack of dictionaries that is never empty;
    [ctx_top] is the innermost one. *)
Record Context : Type := mkContext {
  ctx_top : gmap string value;
  ctx_below : list (gmap string value)
}.

(** [context[key] = v] writes to the innermost dictionary. *)
Definition Context_setitem (key : string) (v : value) (ctx : Context) : Context :=
  mkContext (<[key := v]> (ctx_top ctx)) (ctx_below ctx).

Fixpoint lookup_dicts (key : string) (dicts : list (gmap string value)) : option value :=
  match dicts with
  | [] => None
  | d :: ds =>
      match d !! key with
      | Some v => Some v
      | None => lookup_dicts key ds
      end
  end.

(** [context[key]] reads the innermost dictionary that has the key. *)
Definition Context_getitem (key : string) (ctx : Context) : option value :=
  lookup_dicts key (ctx_top ctx :: ctx_below ctx).

(** [context.update(dictionary)] pushes a dictionary. *)
Definition Context_update (dictionary : gmap string value) (ctx : Context) : Context :=
  mkContext dictionary (ctx_top ctx :: ctx_below ctx).

(** A compiled template, seen as what it renders to in a context. *)
Definition Template : Type := Context -> result string.

(** [loader.select_template(names)]: the first name that is found. *)
Fixpoint select_template (templates : gmap string Template) (names : list string)
  : option Template :=
  match names with
  | [] => None
  | name :: rest =>
      match templates !! name with
      | Some t => Some t
      | None => select_template templates rest
      end
  end.

(** [loader.render_to_string(names, dictionary, context_instance)]: the
    chosen template rendered in the context with the dictionary pushed
    on it. *)
Definition render_to_string (templates : gmap string Template)
    (names : list string) (dictionary : gmap string value) (ctx : Context)
  : result string :=
  match select_template templates names with
  | Some t => t (Context_update dictionary ctx)
  | None => Raise (TemplateDoesNotExist names)
  end.

(** What rendering reads: the comment table and the template
    directories. *)
Record World : Type := mkWorld {
  comments : list XtdComment;
  templates : gmap string Template
}.

End Django.
Import Django.

(** ** django_comments_xtd.models *)

(** Modelled from the spec: the manager method
  [XtdComment.objects.for_content_types] of django_comments_xtd/models.py,
  which the tags call and whose code is not part of the sources at hand.
  The spec has the tags "build queryset", "filter by content type" and
  "fetch the most recent comments": the method yields the lazy queryset of
  the comments whose content type is one of [content_types], and that
  queryset, when run ([QuerySet_iter]), gives them most recent first by
  their ordering timestamp. *)
Definition for_content_types (content_types : list ContentType) : QuerySet :=
mkQuerySet content_types None.

(** ** templatetags/comments_xtd.py *)

(** The names bound at module level once the module is imported: those
    brought in by the three import statements, [register], and the classes
    and functions the module defines. *)
Definition module_globals : list string :=
  [ "ContentType";
    "Library"; "Node"; "Template"; "TemplateSyntaxError"; "Variable";
    "loader"; "RequestContext";
    "XtdComment";
    "register";
    "XtdCommentCountNode"; "get_xtdcomment_count";
    "BaseLastXtdCommentsNode"; "RenderLastXtdCommentsNode";
    "GetLastXtdCommentsNode"; "_get_content_types";
    "render_last_xtdcomments"; "get_last_xtdcomments" ].

(** Reading a name that is not local to the function: it is looked up among
    the module's globals, and a name bound nowhere raises NameError. For a
    bound name the result is a text standing for the object; no message of
    the module formats one. *)
Definition load_global (name : string) : Parse string :=
  if bool_decide (name ∈ module_globals)
  then ret ("<" +:+ name +:+ ">")
  else raise (NameError name).

(** [raise template.TemplateSyntaxError(msg)]: the callee
    [template.TemplateSyntaxError] is evaluated first, then the message,
    then the exception is built and raised. *)
Definition raise_template_TemplateSyntaxError {A} (msg : Parse string) : Parse A :=
  load_global "template" ;;;
  m <- msg ;;
  raise (TemplateSyntaxError m).

(** *** XtdCommentCountNode *)

Record XtdCommentCountNode : Type := mkXtdCommentCountNode {
  count_as_varname : string;
  count_qs : QuerySet
}.

Definition XtdCommentCountNode_init (as_varname : string)
    (content_types : list ContentType) : XtdCommentCountNode :=
  mkXtdCommentCountNode as_varname (for_content_types content_types).

(** [render] of a node: the text it contributes and the context it leaves. *)
Class Node (N : Type) : Type :=
  render : World -> N -> Context -> result (string * Context).

#[global] Instance XtdCommentCountNode_render : Node XtdCommentCountNode :=
  fun w self context =>
    let context := Context_setitem (count_as_varname self)
                     (VInt (QuerySet_count (comments w) (count_qs self))) context in
    Ok (EmptyString, context).

(** *** _get_content_types *)

(** The second and third message read the name [tagname], which is neither
    a parameter nor a local of [_get_content_types]. *)
Definition msg_bad_format (token : string) : Parse string :=
  tagname <- load_global "tagname" ;;
  ret ("Argument " +:+ token +:+ " in " +:+ tagname
       +:+ " must be in the format 'app.model'").

Definition msg_non_existant (app mdl : string) : Parse string :=
  tagname <- load_global "tagname" ;;
  ret (tagname +:+ " tag has non-existant content-type: '"
       +:+ app +:+ "." +:+ mdl +:+ "'").

(** One round of the loop. The two statements of the [try] block raise
    different exceptions, each with its own [except] clause, so the block
    is written as two blocks in a row; [app] and [model] are bound when
    the second clause is entered. *)
Definition content_type_of_token (registry : gmap (string * string) Z)
    (token : string) : Parse ContentType :=
  am <- try_except
          (lift (Py.unpack2 (Py.split_on "." token)))
          (fun e => match e with
                    | ValueError =>
                        Some (raise_template_TemplateSyntaxError (msg_bad_format token))
                    | _ => None
                    end) ;;
  let '(app, mdl) := am in
  try_except
    (ContentType_objects_get registry app mdl)
    (fun e => match e with
              | DoesNotExist =>
                  Some (raise_template_TemplateSyntaxError (msg_non_existant app mdl))
              | _ => None
              end).

Fixpoint get_content_types_loop (registry : gmap (string * string) Z)
    (tokens : list string) (content_types : list ContentType)
  : Parse (list ContentType) :=
  match tokens with
  | [] => ret content_types
  | token :: rest =>
      ct <- content_type_of_token registry token ;;
      get_content_types_loop registry rest (content_types ++ [ct])
  end.

Definition _get_content_types (registry : gmap (string * string) Z)
    (tokens : list string) : Parse (list ContentType) :=
  get_content_types_loop registry tokens [].

(** *** get_xtdcomment_count *)

(** ["... %r ..." % tokens[0]]: the text of a message about the tag, whose
    name is put between [before] and [after]. *)
Definition tag_message (before after : string) (tokens : list string) : Parse string :=
  t0 <- lift (Py.index tokens 0) ;;
  ret (before +:+ Py.repr t0 +:+ after).

Definition msg_2nd_argument : list string -> Parse string :=
  tag_message "2nd. argument in " " tag must be 'for'".

Definition msg_4th_argument : list string -> Parse string :=
  tag_message "4th. argument in " " tag must be 'for'".

Definition get_xtdcomment_count (registry : gmap (string * string) Z)
    (contents : string) : Parse XtdCommentCountNode :=
  let tokens := Py.split contents in
  t1 <- lift (Py.index tokens 1) ;;
  (if negb (String.eqb t1 "as")
   then raise_template_TemplateSyntaxError (msg_2nd_argument tokens)
   else ret tt) ;;;
  as_varname <- lift (Py.index tokens 2) ;;
  t3 <- lift (Py.index tokens 3) ;;
  (if negb (String.eqb t3 "for")
   then raise_template_TemplateSyntaxError (msg_4th_argument tokens)
   else ret tt) ;;;
  content_types <- _get_content_types registry (drop 4 tokens) ;;
  ret (XtdCommentCountNode_init as_varname content_types).

(** *** BaseLastXtdCommentsNode and its two subclasses *)

Definition BaseLastXtdCommentsNode_init (count : Z)
    (content_types : list ContentType) : result QuerySet :=
  QuerySet_slice_to (for_content_types content_types) count.

Record RenderLastXtdCommentsNode : Type := mkRenderLastXtdCommentsNode {
  render_qs : QuerySet
}.

Definition RenderLastXtdCommentsNode_init (count : Z)
    (content_types : list ContentType) : result RenderLastXtdCommentsNode :=
  match BaseLastXtdCommentsNode_init count content_types with
  | Ok qs => Ok (mkRenderLastXtdCommentsNode qs)
  | Raise e => Raise e
  end.

Definition template_search_list (xtd_comment : XtdComment) : list string :=
  [ "django_comments_xtd/" +:+ app_label (content_type xtd_comment) +:+ "/"
      +:+ model (content_type xtd_comment) +:+ "/comment.html";
    "django_comments_xtd/" +:+ app_label (content_type xtd_comment)
      +:+ "/comment.html";
    "django_comments_xtd/comment.html" ].

(** The [for] loop of [RenderLastXtdCommentsNode.render]: [strlist] grows by
    one rendered comment per round. *)
Fixpoint render_loop (w : World) (context : Context)
    (qs : list XtdComment) (strlist : list string) : result (list string) :=
  match qs with
  | [] => Ok strlist
  | xtd_comment :: rest =>
      match render_to_string (templates w) (template_search_list xtd_comment)
              {[ "comment" := VComment xtd_comment ]} context with
      | Ok s => render_loop w context rest (strlist ++ [s])
      | Raise e => Raise e
      end
  end.

#[global] Instance RenderLastXtdCommentsNode_render : Node RenderLastXtdCommentsNode :=
  fun w self context =>
    match render_loop w context (QuerySet_iter (comments w) (render_qs self)) [] with
    | Ok strlist => Ok (Py.join_empty strlist, context)
    | Raise e => Raise e
    end.

Record GetLastXtdCommentsNode : Type := mkGetLastXtdCommentsNode {
  get_qs : QuerySet;
  get_as_varname : string
}.

Definition GetLastXtdCommentsNode_init (count : Z) (as_varname : string)
    (content_types : list ContentType) : result GetLastXtdCommentsNode :=
  match BaseLastXtdCommentsNode_init count content_types with
  | Ok qs => Ok (mkGetLastXtdCommentsNode qs as_varname)
  | Raise e => Raise e
  end.

#[global] Instance GetLastXtdCommentsNode_render : Node GetLastXtdCommentsNode :=
  fun w self context =>
    let context := Context_setitem (get_as_varname self)
                     (VQuerySet (get_qs self)) context in
    Ok (EmptyString, context).

(** *** render_last_xtdcomments and get_last_xtdcomments *)

Definition msg_second_integer : list string -> Parse string :=
  tag_message "Second argument in " " tag must be a integer".

Definition msg_third_for : list string -> Parse string :=
  tag_message "Third argument in " " tag must be 'for'".

Definition msg_third_as : list string -> Parse string :=
  tag_message "Third argument in " " tag must be 'as'".

Definition msg_fifth_for : list string -> Parse string :=
  tag_message "Fifth argument in " " tag must be 'for'".

(** [try: count = int(tokens[1]) / except ValueError: raise ...], written
    the same way in the two tags; only ValueError has a clause. *)
Definition parse_count (tokens : list string) : Parse Z :=
  try_except
    (t1 <- lift (Py.index tokens 1) ;; lift (Py.int t1))
    (fun e => match e with
              | ValueError =>
                  Some (raise_template_TemplateSyntaxError (msg_second_integer tokens))
              | _ => None
              end).

Definition render_last_xtdcomments (registry : gmap (string * string) Z)
    (contents : string) : Parse RenderLastXtdCommentsNode :=
  let tokens := Py.split contents in
  count <- parse_count tokens ;;
  t2 <- lift (Py.index tokens 2) ;;
  (if negb (String.eqb t2 "for")
   then raise_template_TemplateSyntaxError (msg_third_for tokens)
   else ret tt) ;;;
  content_types <- _get_content_types registry (drop 3 tokens) ;;
  lift (RenderLastXtdCommentsNode_init count content_types).

Definition get_last_xtdcomments (registry : gmap (string * string) Z)
    (contents : string) : Parse GetLastXtdCommentsNode :=
  let tokens := Py.split contents in
  count <- parse_count tokens ;;
  t2 <- lift (Py.index tokens 2) ;;
  (if negb (String.eqb t2 "as")
   then raise_template_TemplateSyntaxError (msg_third_as tokens)
   else ret tt) ;;;
  as_varname <- lift (Py.index tokens 3) ;;
  t4 <- lift (Py.index tokens 4) ;;
  (if negb (String.eqb t4 "for")
   then raise_template_TemplateSyntaxError (msg_fifth_for tokens)
   else ret tt) ;;;
  content_types <- _get_content_types registry (drop 5 tokens) ;;
  lift (GetLastXtdCommentsNode_init count as_varname content_types).

(** *** The tags registered with the library *)

(** [register.tag(get_xtdcomment_count)], [register.tag
    (render_last_xtdcomments)], [register.tag(get_last_xtdcomments)]. *)
Inductive Tag : Type :=
| TagGetXtdcommentCount
| TagRenderLastXtdcomments
| TagGetLastXtdcomments.

Inductive AnyNode : Type :=
| CountNode (n : XtdCommentCountNode)
| RenderLastNode (n : RenderLastXtdCommentsNode)
| GetLastNode (n : GetLastXtdCommentsNode).

(** The compilation function the template engine calls for a tag. *)
Definition compile (tag : Tag) (registry : gmap (string * string) Z)
    (contents : string) : Parse AnyNode :=
  match tag with
  | TagGetXtdcommentCount =>
      n <- get_xtdcomment_count registry contents ;; ret (CountNode n)
  | TagRenderLastXtdcomments =>
      n <- render_last_xtdcomments registry contents ;; ret (RenderLastNode n)
  | TagGetLastXtdcomments =>
      n <- get_last_xtdcomments registry contents ;; ret (GetLastNode n)
  end.

(** [node.render(context)], on whichever of the three classes the node is
    of. *)
#[global] Instance AnyNode_render : Node AnyNode :=
  fun w self context =>
    match self with
    | CountNode n => render w n context
    | RenderLastNode n => render w n context
    | GetLastNode n => render w n context
    end.

(** The attribute [as_varname], which two of the classes have. *)
Definition as_varname_of (node : AnyNode) : option string :=
  match node with
  | CountNode n => Some (count_as_varname n)
  | RenderLastNode _ => None
  | GetLastNode n => Some (get_as_varname n)
  end.

(** Where the content-type tokens start: [tokens[4:]], [tokens[3:]],
    [tokens[5:]]. *)
Definition first_content_type (tag : Tag) : nat :=
  match tag with
  | TagGetXtdcommentCount => 4
  | TagRenderLastXtdcomments => 3
  | TagGetLastXtdcomments => 5
  end.

(** ** Notions used in the statements *)

(** The token splits at its one dot into the application label and the
    model of a row of the content-type table. *)
Definition valid_token (registry : gmap (string * string) Z) (token : string) : bool :=
  match Py.unpack2 (Py.split_on "." token) with
  | Ok (app, mdl) => bool_decide (is_Some (registry !! (app, mdl)))
  | Raise _ => false
  end.

(** The content type a token names. *)
Definition names (registry : gmap (string * string) Z)
    (token : string) (ct : ContentType) : Prop :=
  Py.split_on "." token = [app_label ct; model ct] ∧
  registry !! (app_label ct, model ct) = Some (ct_pk ct).

(** The lookup a token leads to, if it gets as far as one. *)
Definition token_queries (token : string) : list OrmQuery :=
  match Py.unpack2 (Py.split_on "." token) with
  | Ok (app, mdl) => [ContentTypeGet app mdl]
  | Raise _ => []
  end.

(** In an invocation cut short, the tokens that are there at the places of
    the count and of the keywords pass the checks made on them. *)
Definition is_keyword_at (tokens : list string) (i : nat) (kw : string) : bool :=
  match tokens !! i with
  | Some t => String.eqb t kw
  | None => true
  end.

Definition is_count_at (tokens : list string) (i : nat) : bool :=
  match tokens !! i with
  | Some t => is_Ok (Py.int t)
  | None => true
  end.

Definition head_ok (tag : Tag) (tokens : list string) : bool :=
  match tag with
  | TagGetXtdcommentCount =>
      is_keyword_at tokens 1 "as" && is_keyword_at tokens 3 "for"
  | TagRenderLastXtdcomments =>
      is_count_at tokens 1 && is_keyword_at tokens 2 "for"
  | TagGetLastXtdcomments =>
      is_count_at tokens 1 && is_keyword_at tokens 2 "as"
      && is_keyword_at tokens 4 "for"
  end.

(** The three compilation functions read by cases on the token list, with
    the raise statements replaced by what they do; the lemmas named
    [..._shape] below show these to be the functions above. *)
Definition count_token_shape (tokens : list string) : Parse Z :=
  match tokens with
  | _ :: t1 :: _ =>
      match Py.int t1 with
      | Ok n => ret n
      | Raise _ => raise (NameError "template")
      end
  | _ => raise IndexError
  end.

Definition count_shape (registry : gmap (string * string) Z)
    (tokens : list string) : Parse XtdCommentCountNode :=
  match tokens with
  | _ :: t1 :: tl =>
      if String.eqb t1 "as" then
        match tl with
        | as_varname :: t3 :: ct_tokens =>
            if String.eqb t3 "for" then
              content_types <- _get_content_types registry ct_tokens ;;
              ret (XtdCommentCountNode_init as_varname content_types)
            else raise (NameError "template")
        | _ => raise IndexError
        end
      else raise (NameError "template")
  | _ => raise IndexError
  end.

Definition render_last_shape (registry : gmap (string * string) Z)
    (tokens : list string) : Parse RenderLastXtdCommentsNode :=
  count <- count_token_shape tokens ;;
  match tokens with
  | _ :: _ :: t2 :: ct_tokens =>
      if String.eqb t2 "for" then
        content_types <- _get_content_types registry ct_tokens ;;
        lift (RenderLastXtdCommentsNode_init count content_types)
      else raise (NameError "template")
  | _ => raise IndexError
  end.

Definition get_last_shape (registry : gmap (string * string) Z)
    (tokens : list string) : Parse GetLastXtdCommentsNode :=
  count <- count_token_shape tokens ;;
  match tokens with
  | _ :: _ :: t2 :: tl =>
      if String.eqb t2 "as" then
        match tl with
        | as_varname :: t4 :: ct_tokens =>
            if String.eqb t4 "for" then
              content_types <- _get_content_types registry ct_tokens ;;
              lift (GetLastXtdCommentsNode_init count as_varname content_types)
            else raise (NameError "template")
        | _ => raise IndexError
        end
      else raise (NameError "template")
  | _ => raise IndexError
  end.

(** The comments of the table with one of the content types. *)
Definition matching (content_types : list ContentType) (db : list XtdComment)
  : list XtdComment :=
  filter (fun c => content_type_in content_types c) db.

(** [rows] are the last [n] comments among [candidates]: they are
    candidates, at most [n] of them and all of them if there are fewer, in
    order from the most recent on, and no candidate left out is more recent
    than one that is in. *)
Definition last_comments (n : Z) (candidates rows : list XtdComment) : Prop :=
  ∃ others,
    rows ++ others ≡ₚ candidates ∧
    length rows = Nat.min (Z.to_nat n) (length candidates) ∧
    Sorted more_recent rows ∧
    ∀ c c', c ∈ rows → c' ∈ others → more_recent c c'.

(** ** Sample data *)

Module Sample.

Definition registry : gmap (string * string) Z :=
  <[("blog", "story") := 1%Z]> (<[("blog", "quote") := 2%Z]> ∅).

Definition story : ContentType := mkContentType 1 "blog" "story".
Definition quote : ContentType := mkContentType 2 "blog" "quote".
Definition flatpage : ContentType := mkContentType 3 "flatpages" "flatpage".

Definition c1 : XtdComment := mkXtdComment 1 story "first" 100.
Definition c2 : XtdComment := mkXtdComment 2 quote "second" 200.
Definition c3 : XtdComment := mkXtdComment 3 flatpage "third" 300.
Definition c4 : XtdComment := mkXtdComment 4 story "fourth" 400.

(** A template that prints the body of the comment it is given. *)
Definition body_template (before : string) : Template :=
  fun context =>
    match Context_getitem "comment" context with
    | Some (VComment c) => Ok (before +:+ comment c +:+ ";")
    | _ => Raise (NameError "comment")
    end.

Definition world : World :=
  mkWorld [c1; c2; c3; c4]
    (<["django_comments_xtd/comment.html" := body_template "generic:"]>
       (<["django_comments_xtd/blog/story/comment.html" := body_template "story:"]> ∅)).

Definition context : Context :=
  mkContext (<["user" := VStr "alice"]> ∅) [ <["n" := VInt 7]> ∅ ].

End Sample.

(** ** Further notions *)

(** The outcomes a compilation function of the module can have: a node, the
    NameError of the name [template], an IndexError, and for the two tags
    that slice their queryset an AssertionError. *)
Definition allowed_outcome (tag : Tag) (r : result AnyNode) : Prop :=
  match r with
  | Ok _ => True
  | Raise (NameError name) => name = "template"
  | Raise IndexError => True
  | Raise AssertionError => tag <> TagGetXtdcommentCount
  | Raise _ => False
  end.

(** The tokens are those of an invocation of one of the two tags that take
    a count, with the count and the content types at their places. *)
Definition reads_last_tag (tag : Tag) (tokens : list string)
    (count_token : string) (ct_tokens : list string) : Prop :=
  match tag with
  | TagGetXtdcommentCount => False
  | TagRenderLastXtdcomments =>
      exists t0, tokens = t0 :: count_token :: "for" :: ct_tokens
  | TagGetLastXtdcomments =>
      exists t0 V, tokens = t0 :: count_token :: "as" :: V :: "for" :: ct_tokens
  end.

(** No character of the string is whitespace. *)
Fixpoint no_space (s : string) : bool :=
  match s with
  | EmptyString => true
  | String c s' => negb (Py.is_space c) && no_space s'
  end.

(** A token as [split()] gives them: not empty and free of whitespace. *)
Definition is_token (s : string) : bool :=
  match s with
  | EmptyString => false
  | _ => no_space s
  end.

(** [' '.join(tokens)] *)
Fixpoint join_space (tokens : list string) : string :=
  match tokens with
  | [] => EmptyString
  | [t] => t
  | t :: rest => t +:+ " " +:+ join_space rest
  end.

(** How many times a character occurs in a string. *)
Fixpoint count_char (c : ascii) (s : string) : nat :=
  match s with
  | EmptyString => 0
  | String c' s' => (if Ascii.eqb c' c then 1 else 0) + count_char c s'
  end.

(** The string is made of decimal digits only. *)
Fixpoint all_digits (s : string) : bool :=
  match s with
  | EmptyString => true
  | String c s' => Py.is_digit c && all_digits s'
  end.

(** Some character of the string passes the test. *)
Fixpoint has_char (p : ascii -> bool) (s : string) : bool :=
  match s with
  | EmptyString => false
  | String c s' => p c || has_char p s'
  end.

(** An ASCII character that cannot stand anywhere in a decimal integer: no
    digit, no sign, no underscore, no whitespace. *)
Definition not_int_char (c : ascii) : bool :=
  let n := nat_of_ascii c in
  (n <? 128)%nat && negb (Py.is_digit c) && negb (Py.is_space c)
  && negb (n =? 43)%nat && negb (n =? 45)%nat && negb (n =? 95)%nat.

(** One to 4300 decimal digits. *)
Definition plain_digits (s : string) : bool :=
  match s with
  | EmptyString => false
  | _ => all_digits s && (String.length s <=? 4300)%nat
  end.

(** An integer written plainly: an optional sign, then one to 4300 decimal
    digits. *)
Definition plain_int (s : string) : bool :=
  match s with
  | EmptyString => false
  | String c d =>
      if Ascii.eqb c "-" || Ascii.eqb c "+" then plain_digits d
      else plain_digits s
  end.

(** In an invocation cut short, the count, if it is there, is a plain
    integer and the keywords that are there are the ones looked for. *)
Definition is_plain_count_at (tokens : list string) (i : nat) : bool :=
  match tokens !! i with
  | Some t => plain_int t
  | None => true
  end.

Definition plain_head_ok (tag : Tag) (tokens : list string) : bool :=
  match tag with
  | TagGetXtdcommentCount =>
      is_keyword_at tokens 1 "as" && is_keyword_at tokens 3 "for"
  | TagRenderLastXtdcomments =>
      is_plain_count_at tokens 1 && is_keyword_at tokens 2 "for"
  | TagGetLastXtdcomments =>
      is_plain_count_at tokens 1 && is_keyword_at tokens 2 "as"
      && is_keyword_at tokens 4 "for"
  end.

(** There is a token at the place of a keyword and it is another word. *)
Definition is_wrong_keyword_at (tokens : list string) (i : nat) (kw : string) : bool :=
  match tokens !! i with
  | Some t => negb (String.eqb t kw)
  | None => false
  end.

(** There is a token at the place of the count and it has a character that
    no integer has. *)
Definition is_not_count_at (tokens : list string) (i : nat) : bool :=
  match tokens !! i with
  | Some t => has_char not_int_char t
  | None => false
  end.

(** The count or one of the keywords of the invocation is wrong. *)
Definition wrong_head (tag : Tag) (tokens : list string) : bool :=
  match tag with
  | TagGetXtdcommentCount =>
      is_wrong_keyword_at tokens 1 "as" || is_wrong_keyword_at tokens 3 "for"
  | TagRenderLastXtdcomments =>
      is_not_count_at tokens 1 || is_wrong_keyword_at tokens 2 "for"
  | TagGetLastXtdcomments =>
      is_not_count_at tokens 1 || is_wrong_keyword_at tokens 2 "as"
      || is_wrong_keyword_at tokens 4 "for"
  end.

(** A token of ASCII characters: not empty, every character below 128 and
    none of them whitespace. *)
Definition ascii_char (c : ascii) : bool :=
  (nat_of_ascii c <? 128)%nat && negb (Py.is_space c).

Fixpoint all_ascii_chars (s : string) : bool :=
  match s with
  | EmptyString => true
  | String c s' => ascii_char c && all_ascii_chars s'
  end.

Definition ascii_token (s : string) : bool :=
  match s with
  | EmptyString => false
  | _ => all_ascii_chars s
  end.

(** The node a well-formed invocation of each tag is compiled into. *)
Definition count_node (as_varname : string) (content_types : list ContentType)
  : AnyNode :=
  CountNode (mkXtdCommentCountNode as_varname (mkQuerySet content_types None)).

Definition render_last_node (count : Z) (content_types : list ContentType)
  : AnyNode :=
  RenderLastNode (mkRenderLastXtdCommentsNode (mkQuerySet content_types (Some count))).

Definition get_last_node (count : Z) (as_varname : string)
    (content_types : list ContentType) : AnyNode :=
  GetLastNode (mkGetLastXtdCommentsNode (mkQuerySet content_types (Some count))
                 as_varname).

(** ** Properties of the primitives *)

Section ParseLaws.
Context {A B : Type}.

Lemma bind_ret_l (a : A) (k : A -> Parse B) : bind (ret a) k = k a.
Proof. unfold bind, ret. destruct (k a) as [l r]. reflexivity. Qed.

Lemma bind_lift_Ok (a : A) (k : A -> Parse B) : bind (lift (Ok a)) k = k a.
Proof. apply bind_ret_l. Qed.

Lemma bind_lift_Raise (e : exn) (k : A -> Parse B) :
  bind (lift (Raise e)) k = raise e.
Proof. reflexivity. Qed.

Lemma bind_raise (e : exn) (k : A -> Parse B) : bind (raise e) k = raise e.
Proof. reflexivity. Qed.

Lemma bind_Ok (l : list OrmQuery) (a : A) (k : A -> Parse B) :
  bind (l, Ok a) k = (l ++ queries (k a), outcome (k a)).
Proof. unfold bind, queries, outcome. destruct (k a). reflexivity. Qed.

Lemma bind_Raise (l : list OrmQuery) (e : exn) (k : A -> Parse B) :
  bind (l, Raise e) k = (l, Raise e).
Proof. reflexivity. Qed.

(** A bind that ends well went well in both halves. *)
Lemma bind_Ok_inv (m : Parse A) (k : A -> Parse B) (l : list OrmQuery) (b : B) :
  bind m k = (l, Ok b) ->
  exists l1 a l2, m = (l1, Ok a) /\ k a = (l2, Ok b) /\ l = l1 ++ l2.
Proof.
  destruct m as [l1 [a | e]]; unfold bind; [| discriminate].
  destruct (k a) as [l2 r] eqn:Hk. intros [= <- ->].
  exists l1, a, l2. auto.
Qed.

Lemma bind_ext (m : Parse A) (k k' : A -> Parse B) :
  (forall a, k a = k' a) -> bind m k = bind m k'.
Proof. intros H. destruct m as [l [a | e]]; simpl; [rewrite H |]; reflexivity. Qed.

End ParseLaws.

Lemma surjective_Parse {A} (m : Parse A) : m = (queries m, outcome m).
Proof. destruct m. reflexivity. Qed.

Lemma split_on_nonempty (sep : ascii) (s : string) : Py.split_on sep s <> [].
Proof.
  destruct s as [| c s]; simpl; [discriminate |].
  destruct (Ascii.eqb c sep); [discriminate |].
  destruct (Py.split_on sep s); discriminate.
Qed.

Lemma split_on_one (sep : ascii) (s b : string) :
  Py.split_on sep s = [b] -> s = b.
Proof.
  revert b. induction s as [| c s IH]; intros b; simpl.
  - intros [= <-]. reflexivity.
  - destruct (Ascii.eqb c sep).
    + intros [= _ H]. destruct (split_on_nonempty _ _ H).
    + destruct (Py.split_on sep s) as [| part parts] eqn:E.
      * destruct (split_on_nonempty _ _ E).
      * intros [= <- ->]. f_equal. apply IH. reflexivity.
Qed.

(** A token that unpacks into two parts is the two parts around the
    separator. *)
Lemma split_on_two (sep : ascii) (s a b : string) :
  Py.split_on sep s = [a; b] -> s = a +:+ String sep b.
Proof.
  revert a. induction s as [| c s IH]; intros a; simpl.
  - discriminate.
  - destruct (Ascii.eqb_spec c sep) as [-> | Hne].
    + intros [= <- H]. rewrite (split_on_one _ _ _ H). reflexivity.
    + destruct (Py.split_on sep s) as [| part parts] eqn:E.
      * destruct (split_on_nonempty _ _ E).
      * intros [= <- ->]. rewrite (IH part eq_refl) at 1. reflexivity.
Qed.

Lemma unpack2_Ok (parts : list string) (a b : string) :
  Py.unpack2 parts = Ok (a, b) <-> parts = [a; b].
Proof.
  split.
  - destruct parts as [| x [| y [| z parts]]]; simpl; try discriminate.
    intros [= -> ->]. reflexivity.
  - intros ->. reflexivity.
Qed.

Lemma unpack2_Raise (parts : list string) (e : exn) :
  Py.unpack2 parts = Raise e -> e = ValueError.
Proof.
  destruct parts as [| x [| y [| z parts]]]; simpl; congruence.
Qed.

(** ** The name [template] is not bound *)

Lemma template_not_global : "template" ∉ module_globals.
Proof. apply (bool_decide_unpack _). vm_compute. exact I. Qed.

Lemma load_global_template : load_global "template" = raise (NameError "template").
Proof.
  unfold load_global. rewrite bool_decide_eq_false_2; [reflexivity |].
  apply template_not_global.
Qed.

Lemma raise_template_unbound {A} (msg : Parse string) :
  @raise_template_TemplateSyntaxError A msg = raise (NameError "template").
Proof.
  unfold raise_template_TemplateSyntaxError. rewrite load_global_template.
  reflexivity.
Qed.

(** ** The loop of _get_content_types *)

Section ContentTypes.
Variable registry : gmap (string * string) Z.

Lemma content_type_of_token_valid (token : string) :
  valid_token registry token = true ->
  exists ct,
    content_type_of_token registry token = (token_queries token, Ok ct) /\
    names registry token ct.
Proof.
  unfold valid_token, content_type_of_token, token_queries, names.
  destruct (Py.unpack2 (Py.split_on "." token)) as [[app mdl] | e] eqn:E;
    [| discriminate].
  apply unpack2_Ok in E. intros H. apply bool_decide_eq_true_1 in H.
  destruct H as [pk Hpk].
  exists (mkContentType pk app mdl). simpl.
  unfold ContentType_objects_get. rewrite Hpk. split; [reflexivity | auto].
Qed.

Lemma content_type_of_token_invalid (token : string) :
  valid_token registry token = false ->
  content_type_of_token registry token
  = (token_queries token, Raise (NameError "template")).
Proof.
  unfold valid_token, content_type_of_token, token_queries.
  destruct (Py.unpack2 (Py.split_on "." token)) as [[app mdl] | e] eqn:E.
  - intros H. apply bool_decide_eq_false_1 in H.
    destruct (registry !! (app, mdl)) as [pk |] eqn:Hpk.
    + destruct H. eauto.
    + rewrite !raise_template_unbound. simpl. unfold ContentType_objects_get.
      rewrite Hpk. reflexivity.
  - intros _. apply unpack2_Raise in E. subst e.
    rewrite !raise_template_unbound. reflexivity.
Qed.

Lemma get_content_types_loop_valid (tokens : list string) :
  Forall (fun t => valid_token registry t = true) tokens ->
  forall acc, exists cts,
    get_content_types_loop registry tokens acc
    = (flat_map token_queries tokens, Ok (acc ++ cts)) /\
    Forall2 (names registry) tokens cts.
Proof.
  induction 1 as [| token rest Hv _ IH]; intros acc.
  - exists []. simpl. rewrite app_nil_r. split; [reflexivity | constructor].
  - destruct (content_type_of_token_valid token Hv) as (ct & Hct & Hn).
    destruct (IH (acc ++ [ct])) as (cts & Hl & HF).
    exists (ct :: cts). simpl. rewrite Hct, bind_Ok, Hl. simpl.
    rewrite <- app_assoc. split; [reflexivity | constructor; assumption].
Qed.

Lemma get_content_types_loop_abort (pre : list string) (bad : string)
    (rest : list string) :
  Forall (fun t => valid_token registry t = true) pre ->
  valid_token registry bad = false ->
  forall acc,
    get_content_types_loop registry (pre ++ bad :: rest) acc
    = (flat_map token_queries (pre ++ [bad]), Raise (NameError "template")).
Proof.
  intros Hpre Hbad. induction Hpre as [| token pre' Hv _ IH]; intros acc.
  - simpl. rewrite (content_type_of_token_invalid bad Hbad), app_nil_r.
    reflexivity.
  - destruct (content_type_of_token_valid token Hv) as (ct & Hct & _).
    simpl. rewrite Hct, bind_Ok, IH. reflexivity.
Qed.

End ContentTypes.

(** ** What the three compilation functions do, by the shape of the tokens *)

Lemma unsigned_int_Raise (s : string) (e : exn) :
  Py.unsigned_int s = Raise e -> e = ValueError.
Proof.
  unfold Py.unsigned_int. destruct s; [congruence |].
  destruct (Py.digits_value _ _); congruence.
Qed.

Lemma int_Raise (s : string) (e : exn) : Py.int s = Raise e -> e = ValueError.
Proof.
  unfold Py.int.
  assert (Hneg : forall d,
    match Py.unsigned_int d with Ok n => Ok (- n)%Z | Raise e0 => Raise e0 end
    = Raise e -> e = ValueError).
  { intros d. destruct (Py.unsigned_int d) eqn:E; [discriminate |].
    intros [= <-]. eapply unsigned_int_Raise; eauto. }
  destruct (Py.strip s) as [| c d]; [apply unsigned_int_Raise |].
  destruct c as [[] [] [] [] [] [] [] []];
    first [ apply Hneg | apply unsigned_int_Raise ].
Qed.

Lemma get_xtdcomment_count_shape registry contents :
  get_xtdcomment_count registry contents = count_shape registry (Py.split contents).
Proof.
  unfold get_xtdcomment_count, count_shape. cbv zeta.
  generalize (Py.split contents). intros tokens.
  rewrite !raise_template_unbound.
  destruct tokens as [| t0 [| t1 tl]]; try reflexivity.
  change (Py.index (t0 :: t1 :: tl) 1) with (Ok t1). rewrite bind_lift_Ok.
  destruct (String.eqb t1 "as"); [| reflexivity].
  simpl negb. cbv iota. rewrite bind_ret_l.
  destruct tl as [| v [| t3 cts]]; try reflexivity.
  change (Py.index (t0 :: t1 :: v :: t3 :: cts) 2) with (Ok v).
  change (Py.index (t0 :: t1 :: v :: t3 :: cts) 3) with (Ok t3).
  rewrite !bind_lift_Ok.
  destruct (String.eqb t3 "for"); [| reflexivity].
  simpl negb. cbv iota. rewrite bind_ret_l. reflexivity.
Qed.

Lemma parse_count_shape tokens : parse_count tokens = count_token_shape tokens.
Proof.
  unfold parse_count, count_token_shape. rewrite !raise_template_unbound.
  destruct tokens as [| t0 [| t1 tl]]; try reflexivity.
  change (Py.index (t0 :: t1 :: tl) 1) with (Ok t1). rewrite bind_lift_Ok.
  destruct (Py.int t1) as [n | e] eqn:E; [reflexivity |].
  apply int_Raise in E. subst e. reflexivity.
Qed.

Lemma render_last_xtdcomments_shape registry contents :
  render_last_xtdcomments registry contents
  = render_last_shape registry (Py.split contents).
Proof.
  unfold render_last_xtdcomments, render_last_shape. cbv zeta.
  generalize (Py.split contents). intros tokens.
  rewrite !raise_template_unbound, parse_count_shape.
  apply bind_ext. intros count.
  destruct tokens as [| t0 [| t1 [| t2 cts]]]; try reflexivity.
  change (Py.index (t0 :: t1 :: t2 :: cts) 2) with (Ok t2).
  rewrite bind_lift_Ok.
  destruct (String.eqb t2 "for"); [| reflexivity].
  simpl negb. cbv iota. rewrite bind_ret_l. reflexivity.
Qed.

Lemma get_last_xtdcomments_shape registry contents :
  get_last_xtdcomments registry contents
  = get_last_shape registry (Py.split contents).
Proof.
  unfold get_last_xtdcomments, get_last_shape. cbv zeta.
  generalize (Py.split contents). intros tokens.
  rewrite !raise_template_unbound, parse_count_shape.
  apply bind_ext. intros count.
  destruct tokens as [| t0 [| t1 [| t2 tl]]]; try reflexivity.
  change (Py.index (t0 :: t1 :: t2 :: tl) 2) with (Ok t2).
  rewrite bind_lift_Ok.
  destruct (String.eqb t2 "as"); [| reflexivity].
  simpl negb. cbv iota. rewrite bind_ret_l.
  destruct tl as [| v [| t4 cts]]; try reflexivity.
  change (Py.index (t0 :: t1 :: t2 :: v :: t4 :: cts) 3) with (Ok v).
  change (Py.index (t0 :: t1 :: t2 :: v :: t4 :: cts) 4) with (Ok t4).
  rewrite !bind_lift_Ok.
  destruct (String.eqb t4 "for"); [| reflexivity].
  simpl negb. cbv iota. rewrite bind_ret_l. reflexivity.
Qed.

Section ContentTypesOutcome.
Variable registry : gmap (string * string) Z.

Lemma valid_or_first_invalid (tokens : list string) :
  Forall (fun t => valid_token registry t = true) tokens \/
  exists pre bad rest,
    tokens = pre ++ bad :: rest /\
    Forall (fun t => valid_token registry t = true) pre /\
    valid_token registry bad = false.
Proof.
  induction tokens as [| t tokens IH]; [left; constructor |].
  destruct (valid_token registry t) eqn:Hv.
  - destruct IH as [IH | (pre & bad & rest & -> & Hpre & Hbad)].
    + left. constructor; assumption.
    + right. exists (t :: pre), bad, rest. auto.
  - right. exists [], t, tokens. auto.
Qed.

Lemma get_content_types_valid (tokens : list string) :
  Forall (fun t => valid_token registry t = true) tokens ->
  exists cts,
    _get_content_types registry tokens = (flat_map token_queries tokens, Ok cts) /\
    Forall2 (names registry) tokens cts.
Proof.
  intros H. destruct (get_content_types_loop_valid registry tokens H []) as (cts & E & F).
  exists cts. split; assumption.
Qed.

Lemma get_content_types_abort (pre : list string) (bad : string) (rest : list string) :
  Forall (fun t => valid_token registry t = true) pre ->
  valid_token registry bad = false ->
  _get_content_types registry (pre ++ bad :: rest)
  = (flat_map token_queries (pre ++ [bad]), Raise (NameError "template")).
Proof. intros. apply get_content_types_loop_abort; assumption. Qed.

Lemma get_content_types_Ok_inv (tokens : list string) l cts :
  _get_content_types registry tokens = (l, Ok cts) ->
  Forall (fun t => valid_token registry t = true) tokens /\
  Forall2 (names registry) tokens cts.
Proof.
  intros E.
  destruct (valid_or_first_invalid tokens) as [H | (pre & bad & rest & -> & Hpre & Hbad)].
  - split; [exact H |].
    destruct (get_content_types_valid tokens H) as (cts' & E' & F).
    rewrite E' in E. injection E as _ ->. exact F.
  - rewrite get_content_types_abort in E by assumption. discriminate.
Qed.

(** Whatever the tokens, the loop does not end in a TemplateSyntaxError. *)
Lemma get_content_types_outcome (tokens : list string) :
  (exists cts, outcome (_get_content_types registry tokens) = Ok cts) \/
  outcome (_get_content_types registry tokens) = Raise (NameError "template").
Proof.
  destruct (valid_or_first_invalid tokens) as [H | (pre & bad & rest & -> & Hpre & Hbad)].
  - destruct (get_content_types_valid tokens H) as (cts & E & _).
    left. exists cts. rewrite E. reflexivity.
  - right. rewrite get_content_types_abort by assumption. reflexivity.
Qed.

End ContentTypesOutcome.

Lemma names_dotted registry token ct :
  names registry token ct -> token = app_label ct +:+ "." +:+ model ct.
Proof. intros [H _]. apply split_on_two in H. exact H. Qed.

(** ** The claims about _get_content_types *)

(** C10. When every token splits into exactly one app.model pair that names
    a row of the content-type table, [_get_content_types] returns a list
    with one content type per token, in the order of the tokens: the n-th
    content type is the row named by the n-th token. *)
Theorem get_content_types_one_per_token
    (registry : gmap (string * string) Z) (tokens : list string) :
  Forall (fun t => valid_token registry t = true) tokens ->
  exists content_types,
    outcome (_get_content_types registry tokens) = Ok content_types /\
    length content_types = length tokens /\
    Forall2 (fun token ct =>
               names registry token ct /\
               token = app_label ct +:+ "." +:+ model ct)
            tokens content_types.
Proof.
  intros H. destruct (get_content_types_valid registry tokens H) as (cts & E & F).
  exists cts. rewrite E. split; [reflexivity |]. split.
  - symmetry. eapply Forall2_length; eauto.
  - eapply Forall2_impl; [exact F |]. intros token ct Hn.
    split; [exact Hn | eapply names_dotted; eauto].
Qed.

Lemma get_content_types_one_per_token_witness :
  exists content_types,
    outcome (_get_content_types Sample.registry ["blog.story"; "blog.quote"])
    = Ok content_types /\
    length content_types = 2 /\
    Forall2 (fun token ct =>
               names Sample.registry token ct /\
               token = app_label ct +:+ "." +:+ model ct)
            ["blog.story"; "blog.quote"] content_types.
Proof.
  apply (get_content_types_one_per_token Sample.registry ["blog.story"; "blog.quote"]).
  repeat constructor.
Defined.

(** C7. When one of the content-type tokens of an invocation is not valid,
    [_get_content_types] stops at the first such token by raising an
    error: the lookups made are those of the tokens up to that one, once
    each and in order, and none for a later token. The compilation function
    of the tag then returns no node (so no queryset either); the lookups it
    made are none at all or the same ones. *)
Theorem invalid_content_type_aborts
    (registry : gmap (string * string) Z) (tag : Tag) (contents : string)
    (pre : list string) (bad : string) (rest : list string) :
  drop (first_content_type tag) (Py.split contents) = pre ++ bad :: rest ->
  Forall (fun t => valid_token registry t = true) pre ->
  valid_token registry bad = false ->
  (exists e, outcome (_get_content_types registry (pre ++ bad :: rest)) = Raise e) /\
  queries (_get_content_types registry (pre ++ bad :: rest))
  = flat_map token_queries (pre ++ [bad]) /\
  is_Ok (outcome (compile tag registry contents)) = false /\
  (queries (compile tag registry contents) = [] \/
   queries (compile tag registry contents) = flat_map token_queries (pre ++ [bad])).
Proof.
  intros Hdrop Hpre Hbad.
  pose proof (get_content_types_abort registry pre bad rest Hpre Hbad) as Habort.
  split; [eexists; rewrite Habort; reflexivity |].
  split; [rewrite Habort; reflexivity |].
  destruct tag; unfold compile, first_content_type in *.
  - rewrite get_xtdcomment_count_shape.
    destruct (Py.split contents) as [| t0 [| t1 [| v [| t3 cts]]]];
      try (destruct pre; discriminate).
    cbv [drop] in Hdrop. subst cts. unfold count_shape.
    destruct (String.eqb t1 "as"); [| simpl; auto].
    destruct (String.eqb t3 "for"); [| simpl; auto].
    rewrite Habort. simpl. auto.
  - rewrite render_last_xtdcomments_shape.
    destruct (Py.split contents) as [| t0 [| t1 [| t2 cts]]];
      try (destruct pre; discriminate).
    cbv [drop] in Hdrop. subst cts. unfold render_last_shape, count_token_shape.
    destruct (Py.int t1) as [n | e]; [| simpl; auto].
    rewrite bind_ret_l.
    destruct (String.eqb t2 "for"); [| simpl; auto].
    rewrite Habort. simpl. auto.
  - rewrite get_last_xtdcomments_shape.
    destruct (Py.split contents) as [| t0 [| t1 [| t2 [| v [| t4 cts]]]]];
      try (destruct pre; discriminate).
    cbv [drop] in Hdrop. subst cts. unfold get_last_shape, count_token_shape.
    destruct (Py.int t1) as [n | e]; [| simpl; auto].
    rewrite bind_ret_l.
    destruct (String.eqb t2 "as"); [| simpl; auto].
    destruct (String.eqb t4 "for"); [| simpl; auto].
    rewrite Habort. simpl. auto.
Qed.

Lemma invalid_content_type_aborts_witness :
  (exists e, outcome (_get_content_types Sample.registry
                        (["blog.story"] ++ "blogquote" :: ["blog.quote"])) = Raise e) /\
  queries (_get_content_types Sample.registry
             (["blog.story"] ++ "blogquote" :: ["blog.quote"]))
  = flat_map token_queries (["blog.story"] ++ ["blogquote"]) /\
  is_Ok (outcome (compile TagGetLastXtdcomments Sample.registry
           "get_last_xtdcomments 5 as last for blog.story blogquote blog.quote"))
  = false /\
  (queries (compile TagGetLastXtdcomments Sample.registry
      "get_last_xtdcomments 5 as last for blog.story blogquote blog.quote") = [] \/
   queries (compile TagGetLastXtdcomments Sample.registry
      "get_last_xtdcomments 5 as last for blog.story blogquote blog.quote")
   = flat_map token_queries (["blog.story"] ++ ["blogquote"])).
Proof.
  apply (invalid_content_type_aborts Sample.registry TagGetLastXtdcomments
           "get_last_xtdcomments 5 as last for blog.story blogquote blog.quote"
           ["blog.story"] "blogquote" ["blog.quote"]).
  - reflexivity.
  - repeat constructor.
  - reflexivity.
Defined.

Example invalid_content_type_queries :
  compile TagGetLastXtdcomments Sample.registry
    "get_last_xtdcomments 5 as last for blog.story blog.nope blog.quote"
  = ([ContentTypeGet "blog" "story"; ContentTypeGet "blog" "nope"],
     Raise (NameError "template")).
Proof. vm_compute. reflexivity. Qed.

(** ** Counts written with digits only *)

Lemma digit_not_space (c : ascii) : Py.is_digit c = true -> Py.is_space c = false.
Proof.
  unfold Py.is_digit, Py.is_space. cbv zeta.
  generalize (nat_of_ascii c). intros n H.
  apply andb_true_iff in H as [H1 H2].
  apply Nat.leb_le in H1. apply Nat.leb_le in H2.
  apply orb_false_iff. split; [apply orb_false_iff; split |].
  - apply andb_false_iff. right. apply Nat.leb_gt. lia.
  - apply andb_false_iff. right. apply Nat.leb_gt. lia.
  - apply Nat.eqb_neq. lia.
Qed.

Lemma rev_app_rev_app (s acc acc' : string) :
  String.rev_app (String.rev_app s acc) acc'
  = String.rev_app acc (s +:+ acc').
Proof.
  revert acc acc'. induction s as [| c s IH]; intros acc acc'; simpl.
  - reflexivity.
  - rewrite IH. reflexivity.
Qed.

Lemma append_empty_r (s : string) : s +:+ EmptyString = s.
Proof.
  induction s as [| c s IH]; [reflexivity |].
  change (String c (s +:+ EmptyString) = String c s). congruence.
Qed.

Lemma rev_rev (s : string) : String.rev (String.rev s) = s.
Proof.
  unfold String.rev. rewrite rev_app_rev_app. apply append_empty_r.
Qed.

Lemma all_digits_rev_app (s acc : string) :
  all_digits s = true -> all_digits acc = true ->
  all_digits (String.rev_app s acc) = true.
Proof.
  revert acc. induction s as [| c s IH]; intros acc Hs Hacc; simpl in *.
  - exact Hacc.
  - apply andb_true_iff in Hs as [Hc Hs]. apply IH; [exact Hs |].
    simpl. rewrite Hc, Hacc. reflexivity.
Qed.

Lemma all_digits_lstrip (s : string) : all_digits s = true -> Py.lstrip s = s.
Proof.
  destruct s as [| c s]; simpl; [reflexivity |].
  intros H. apply andb_true_iff in H as [Hc _].
  rewrite (digit_not_space c Hc). reflexivity.
Qed.

Lemma all_digits_strip (s : string) : all_digits s = true -> Py.strip s = s.
Proof.
  intros H. unfold Py.strip. rewrite (all_digits_lstrip s H).
  rewrite all_digits_lstrip; [apply rev_rev |].
  apply all_digits_rev_app; [exact H | reflexivity].
Qed.

Lemma digits_value_nonneg (s : string) :
  all_digits s = true ->
  forall acc, (0 <= acc)%Z ->
    exists n, Py.digits_value acc s = Some n /\ (0 <= n)%Z.
Proof.
  induction s as [| c s IH]; intros H acc Hacc; simpl in *.
  - eauto.
  - apply andb_true_iff in H as [Hc Hs]. rewrite Hc.
    apply IH; [exact Hs |].
    unfold Py.is_digit in Hc. cbv zeta in Hc.
    apply andb_true_iff in Hc as [H1 _]. apply Nat.leb_le in H1. lia.
Qed.

(** [int] reads a non-empty string of digits as a number that is not
    negative. *)
Lemma int_all_digits (s : string) :
  s <> EmptyString -> all_digits s = true ->
  exists n, Py.int s = Ok n /\ (0 <= n)%Z.
Proof.
  intros Hne H. unfold Py.int. rewrite (all_digits_strip s H).
  destruct (digits_value_nonneg s H 0%Z ltac:(lia)) as (n & Hn & Hpos).
  exists n. split; [| exact Hpos].
  assert (Hu : Py.unsigned_int s = Ok n).
  { unfold Py.unsigned_int. destruct s; [contradiction | rewrite Hn; reflexivity]. }
  destruct s as [| c d]; [contradiction |].
  simpl in H. apply andb_true_iff in H as [Hc _].
  destruct c as [[] [] [] [] [] [] [] []]; try discriminate Hc; exact Hu.
Qed.

Lemma no_space_rev_app (s acc : string) :
  no_space s = true -> no_space acc = true ->
  no_space (String.rev_app s acc) = true.
Proof.
  revert acc. induction s as [| c s IH]; intros acc Hs Hacc; simpl in *.
  - exact Hacc.
  - apply andb_true_iff in Hs as [Hc Hs]. apply IH; [exact Hs |].
    simpl. rewrite Hc, Hacc. reflexivity.
Qed.

Lemma no_space_lstrip (s : string) : no_space s = true -> Py.lstrip s = s.
Proof.
  destruct s as [| c s]; simpl; [reflexivity |].
  intros H. apply andb_true_iff in H as [Hc _].
  apply negb_true_iff in Hc. rewrite Hc. reflexivity.
Qed.

(** Nothing is stripped from a string without whitespace. *)
Lemma no_space_strip (s : string) : no_space s = true -> Py.strip s = s.
Proof.
  intros H. unfold Py.strip. rewrite (no_space_lstrip s H).
  rewrite no_space_lstrip; [apply rev_rev |].
  apply no_space_rev_app; [exact H | reflexivity].
Qed.

Lemma all_digits_no_space (s : string) : all_digits s = true -> no_space s = true.
Proof.
  induction s as [| c s IH]; simpl; [reflexivity |].
  intros H. apply andb_true_iff in H as [Hc Hs].
  rewrite (digit_not_space c Hc), (IH Hs). reflexivity.
Qed.

Lemma plain_digits_unsigned (s : string) :
  plain_digits s = true -> exists n, Py.unsigned_int s = Ok n /\ (0 <= n)%Z.
Proof.
  unfold plain_digits. destruct s as [| c d]; [discriminate |].
  intros H. apply andb_true_iff in H as [H _].
  destruct (digits_value_nonneg _ H 0%Z ltac:(lia)) as (n & Hn & Hpos).
  exists n. unfold Py.unsigned_int. rewrite Hn. auto.
Qed.

Lemma plain_digits_all_digits (s : string) :
  plain_digits s = true -> all_digits s = true.
Proof.
  unfold plain_digits. destruct s; [discriminate |].
  intros H. apply andb_true_iff in H as [H _]. exact H.
Qed.

(** [int] reads every plain integer. *)
Lemma plain_int_Ok (s : string) :
  plain_int s = true -> exists n, Py.int s = Ok n.
Proof.
  unfold plain_int. destruct s as [| c d]; [discriminate |].
  destruct (Ascii.eqb_spec c "-") as [-> | Hm];
    [| destruct (Ascii.eqb_spec c "+") as [-> | Hp]]; simpl orb; cbv iota;
    intros H.
  - destruct (plain_digits_unsigned d H) as (n & Hn & _).
    exists (- n)%Z. unfold Py.int.
    rewrite no_space_strip.
    + rewrite Hn. reflexivity.
    + simpl. apply all_digits_no_space, plain_digits_all_digits, H.
  - destruct (plain_digits_unsigned d H) as (n & Hn & _).
    exists n. unfold Py.int.
    rewrite no_space_strip.
    + exact Hn.
    + simpl. apply all_digits_no_space, plain_digits_all_digits, H.
  - destruct (plain_digits_unsigned _ H) as (n & Hn & _).
    exists n. unfold Py.int.
    rewrite (no_space_strip _ (all_digits_no_space _ (plain_digits_all_digits _ H))).
    pose proof (plain_digits_all_digits _ H) as Hd. simpl in Hd.
    apply andb_true_iff in Hd as [Hc _].
    destruct c as [[] [] [] [] [] [] [] []]; try discriminate Hc; exact Hn.
Qed.

Lemma not_int_char_spec (c : ascii) :
  not_int_char c = true ->
  Py.is_digit c = false /\ Py.is_space c = false /\ c <> "-"%char /\ c <> "+"%char.
Proof.
  unfold not_int_char. cbv zeta. intros H.
  repeat (apply andb_true_iff in H as [H ?]).
  repeat split.
  - apply negb_true_iff. assumption.
  - apply negb_true_iff. assumption.
  - intros ->. discriminate.
  - intros ->. discriminate.
Qed.

Lemma has_not_int_char_lstrip (s : string) :
  has_char not_int_char s = true -> has_char not_int_char (Py.lstrip s) = true.
Proof.
  induction s as [| c s IH]; simpl; [discriminate |].
  intros H. destruct (Py.is_space c) eqn:Hc; [| exact H].
  apply IH. apply orb_true_iff in H as [H | H]; [| exact H].
  apply not_int_char_spec in H as (_ & Hs & _). congruence.
Qed.

Lemma has_char_rev_app (p : ascii -> bool) (s acc : string) :
  has_char p (String.rev_app s acc) = has_char p s || has_char p acc.
Proof.
  revert acc. induction s as [| c s IH]; intros acc; simpl; [reflexivity |].
  rewrite IH. simpl. destruct (p c), (has_char p s), (has_char p acc); reflexivity.
Qed.

Lemma has_not_int_char_strip (s : string) :
  has_char not_int_char s = true -> has_char not_int_char (Py.strip s) = true.
Proof.
  intros H. unfold Py.strip, String.rev.
  rewrite has_char_rev_app, orb_false_r.
  apply has_not_int_char_lstrip.
  rewrite has_char_rev_app, orb_false_r.
  apply has_not_int_char_lstrip, H.
Qed.

Lemma has_not_int_char_digits_value (s : string) :
  has_char not_int_char s = true -> forall acc, Py.digits_value acc s = None.
Proof.
  induction s as [| c s IH]; simpl; [discriminate |].
  intros H acc. destruct (Py.is_digit c) eqn:Hc; [| reflexivity].
  apply IH. apply orb_true_iff in H as [H | H]; [| exact H].
  apply not_int_char_spec in H as (Hd & _). congruence.
Qed.

Lemma has_not_int_char_unsigned (s : string) :
  has_char not_int_char s = true -> Py.unsigned_int s = Raise ValueError.
Proof.
  intros H. unfold Py.unsigned_int. destruct s; [discriminate |].
  rewrite (has_not_int_char_digits_value _ H). reflexivity.
Qed.

(** [int] reads no string with a character that no integer has. *)
Lemma has_not_int_char_int (s : string) :
  has_char not_int_char s = true -> Py.int s = Raise ValueError.
Proof.
  intros H. apply has_not_int_char_strip in H. unfold Py.int.
  destruct (Py.strip s) as [| c d]; [discriminate |].
  assert (Hd : c = "-"%char \/ c = "+"%char -> has_char not_int_char d = true).
  { intros Hc. simpl in H. apply orb_true_iff in H as [H | H]; [| exact H].
    apply not_int_char_spec in H as (_ & _ & Hm & Hp).
    destruct Hc; contradiction. }
  pose proof (has_not_int_char_unsigned _ H) as Hall.
  destruct c as [[] [] [] [] [] [] [] []]; try exact Hall.
  - rewrite (has_not_int_char_unsigned d (Hd (or_intror eq_refl))). reflexivity.
  - rewrite (has_not_int_char_unsigned d (Hd (or_introl eq_refl))). reflexivity.
Qed.

(** ** Invocations with too few tokens *)

Lemma is_Ok_true {A} (r : result A) : is_Ok r = true -> exists a, r = Ok a.
Proof. destruct r; [eauto | discriminate]. Qed.

(** C8, as the claim has it, does not hold: an invocation of
    get_xtdcomment_count with four tokens, one fewer than its syntax asks
    for, is compiled into a node and raises nothing. *)
Lemma four_tokens_no_IndexError :
  ~ (forall (registry : gmap (string * string) Z) (contents : string),
       length (Py.split contents) < 5 ->
       outcome (get_xtdcomment_count registry contents) = Raise IndexError).
Proof.
  intros H.
  specialize (H Sample.registry "get_xtdcomment_count as n for").
  assert (Hlen : length (Py.split "get_xtdcomment_count as n for") < 5).
  { change (4 < 5). lia. }
  specialize (H Hlen). vm_compute in H. discriminate H.
Qed.

(** An invocation cut short whose count is read by [int] and whose keywords
    are right runs into the end of the token list. *)
Lemma short_head_ok_IndexError
    (registry : gmap (string * string) Z) (tag : Tag) (contents : string) :
  length (Py.split contents) < first_content_type tag ->
  head_ok tag (Py.split contents) = true ->
  compile tag registry contents = ([], Raise IndexError).
Proof.
  intros Hlen Hhead.
  destruct tag; unfold compile, first_content_type, head_ok in *.
  - rewrite get_xtdcomment_count_shape.
    destruct (Py.split contents) as [| t0 [| t1 [| v [| t3 cts]]]];
      try reflexivity; simpl in Hlen; try lia;
      unfold is_keyword_at in Hhead; simpl in Hhead;
      rewrite andb_true_r in Hhead; unfold count_shape; rewrite Hhead;
      reflexivity.
  - rewrite render_last_xtdcomments_shape.
    destruct (Py.split contents) as [| t0 [| t1 [| t2 cts]]];
      try reflexivity; simpl in Hlen; try lia.
    unfold is_count_at, is_keyword_at in Hhead. simpl in Hhead.
    rewrite andb_true_r in Hhead. apply is_Ok_true in Hhead as [n Hn].
    unfold render_last_shape, count_token_shape. rewrite Hn. reflexivity.
  - rewrite get_last_xtdcomments_shape.
    destruct (Py.split contents) as [| t0 [| t1 [| t2 [| v [| t4 cts]]]]];
      try reflexivity; simpl in Hlen; try lia;
      unfold is_count_at, is_keyword_at in Hhead; simpl in Hhead;
      rewrite ?andb_true_r in Hhead;
      try (apply andb_true_iff in Hhead as [Hhead Has]);
      apply is_Ok_true in Hhead as [n Hn];
      unfold get_last_shape, count_token_shape; rewrite Hn, ?Has; reflexivity.
Qed.

Lemma plain_head_ok_head_ok (tag : Tag) (tokens : list string) :
  plain_head_ok tag tokens = true -> head_ok tag tokens = true.
Proof.
  assert (Hcount : forall i, is_plain_count_at tokens i = true ->
                             is_count_at tokens i = true).
  { intros i. unfold is_plain_count_at, is_count_at.
    destruct (tokens !! i) as [t |]; [| reflexivity].
    intros H. destruct (plain_int_Ok t H) as [n ->]. reflexivity. }
  destruct tag; unfold plain_head_ok, head_ok; [auto | |]; intros H.
  - apply andb_true_iff in H as [H1 H2]. rewrite (Hcount _ H1), H2. reflexivity.
  - apply andb_true_iff in H as [H H3]. apply andb_true_iff in H as [H1 H2].
    rewrite (Hcount _ H1), H2, H3. reflexivity.
Qed.

(** C8, amended. An invocation with fewer tokens than the compilation
    function indexes (fewer than four for get_xtdcomment_count, three for
    render_last_xtdcomments, five for get_last_xtdcomments), in which the
    keywords that are there are the ones looked for and the count, if it is
    there, is an integer written plainly (an optional sign and one to 4300
    decimal digits), fails with IndexError, and so not with a
    TemplateSyntaxError, before any lookup is made. *)
Theorem short_invocation_IndexError
    (registry : gmap (string * string) Z) (tag : Tag) (contents : string) :
  length (Py.split contents) < first_content_type tag ->
  plain_head_ok tag (Py.split contents) = true ->
  compile tag registry contents = ([], Raise IndexError).
Proof.
  intros Hlen Hhead. apply short_head_ok_IndexError; [exact Hlen |].
  apply plain_head_ok_head_ok, Hhead.
Qed.

Lemma short_invocation_IndexError_witness :
  compile TagGetLastXtdcomments Sample.registry "get_last_xtdcomments 5 as"
  = ([], Raise IndexError).
Proof.
  apply (short_invocation_IndexError Sample.registry TagGetLastXtdcomments
           "get_last_xtdcomments 5 as").
  - change (3 < 5). lia.
  - reflexivity.
Defined.

(** With the content types alone left out, the three tags are compiled
    into nodes over the empty list of content types. *)
Example no_content_types_compiles :
  outcome (compile TagGetXtdcommentCount Sample.registry
             "get_xtdcomment_count as n for")
  = Ok (CountNode (mkXtdCommentCountNode "n" (mkQuerySet [] None))) /\
  outcome (compile TagRenderLastXtdcomments Sample.registry
             "render_last_xtdcomments 5 for")
  = Ok (RenderLastNode (mkRenderLastXtdCommentsNode (mkQuerySet [] (Some 5%Z)))) /\
  outcome (compile TagGetLastXtdcomments Sample.registry
             "get_last_xtdcomments 5 as last for")
  = Ok (GetLastNode (mkGetLastXtdCommentsNode (mkQuerySet [] (Some 5%Z)) "last")).
Proof. vm_compute. auto. Qed.

(** ** The exception raised for a malformed invocation *)

(** No invocation at all is answered by a TemplateSyntaxError. *)
Lemma compile_never_TemplateSyntaxError
    (registry : gmap (string * string) Z) (tag : Tag) (contents : string)
    (msg : string) :
  outcome (compile tag registry contents) <> Raise (TemplateSyntaxError msg).
Proof.
  destruct tag; unfold compile.
  - rewrite get_xtdcomment_count_shape. unfold count_shape.
    destruct (Py.split contents) as [| t0 [| t1 [| v [| t3 cts]]]];
      try discriminate;
      destruct (String.eqb t1 "as"); try discriminate.
    destruct (String.eqb t3 "for"); try discriminate.
    rewrite (surjective_Parse (_get_content_types registry cts)).
    destruct (get_content_types_outcome registry cts) as [[c E] | E];
      rewrite E; discriminate.
  - rewrite render_last_xtdcomments_shape.
    unfold render_last_shape, count_token_shape.
    destruct (Py.split contents) as [| t0 [| t1 [| t2 cts]]];
      try discriminate;
      (destruct (Py.int t1) as [n | e]; [rewrite bind_ret_l | discriminate]);
      try discriminate.
    destruct (String.eqb t2 "for"); try discriminate.
    rewrite (surjective_Parse (_get_content_types registry cts)).
    destruct (get_content_types_outcome registry cts) as [[c E] | E];
      rewrite E; [| discriminate].
    rewrite !bind_Ok. unfold RenderLastXtdCommentsNode_init,
      BaseLastXtdCommentsNode_init, QuerySet_slice_to.
    destruct (n <? 0)%Z; discriminate.
  - rewrite get_last_xtdcomments_shape.
    unfold get_last_shape, count_token_shape.
    destruct (Py.split contents) as [| t0 [| t1 [| t2 [| v [| t4 cts]]]]];
      try discriminate;
      (destruct (Py.int t1) as [n | e]; [rewrite bind_ret_l | discriminate]);
      try discriminate;
      destruct (String.eqb t2 "as"); try discriminate.
    destruct (String.eqb t4 "for"); try discriminate.
    rewrite (surjective_Parse (_get_content_types registry cts)).
    destruct (get_content_types_outcome registry cts) as [[c E] | E];
      rewrite E; [| discriminate].
    rewrite !bind_Ok. unfold GetLastXtdCommentsNode_init,
      BaseLastXtdCommentsNode_init, QuerySet_slice_to.
    destruct (n <? 0)%Z; discriminate.
Qed.

(** A count or a keyword that is wrong, wherever it stands, ends the
    compilation with the NameError of the unbound [template]. *)
Lemma wrong_head_NameError
    (registry : gmap (string * string) Z) (tag : Tag) (contents : string) :
  head_ok tag (Py.split contents) = false ->
  compile tag registry contents = ([], Raise (NameError "template")).
Proof.
  intros Hhead.
  destruct tag; unfold compile, head_ok, is_count_at, is_keyword_at in *.
  - rewrite get_xtdcomment_count_shape. unfold count_shape.
    destruct (Py.split contents) as [| t0 [| t1 [| v [| t3 cts]]]];
      simpl in Hhead; try discriminate;
      destruct (String.eqb t1 "as"); try discriminate; try reflexivity.
    simpl in Hhead. rewrite Hhead. reflexivity.
  - rewrite render_last_xtdcomments_shape.
    unfold render_last_shape, count_token_shape.
    destruct (Py.split contents) as [| t0 [| t1 [| t2 cts]]];
      simpl in Hhead; try discriminate;
      destruct (Py.int t1) as [n | e]; simpl in Hhead;
      try discriminate; try reflexivity.
    rewrite Hhead. reflexivity.
  - rewrite get_last_xtdcomments_shape.
    unfold get_last_shape, count_token_shape.
    destruct (Py.split contents) as [| t0 [| t1 [| t2 [| v [| t4 cts]]]]];
      simpl in Hhead; try discriminate;
      destruct (Py.int t1) as [n | e]; simpl in Hhead;
      try discriminate; try reflexivity;
      destruct (String.eqb t2 "as"); simpl in Hhead;
      try discriminate; try reflexivity.
    rewrite Hhead. reflexivity.
Qed.

(** C2. The claim asks for a TemplateSyntaxError and nothing else when a
    keyword is wrong or the count is not an integer. On such invocations of
    each of the three tags the code raises NameError: the raise statements
    go through the name [template], which the module does not import. *)
Theorem malformed_invocation_raises_NameError :
  outcome (get_xtdcomment_count Sample.registry
             "get_xtdcomment_count xx n for blog.story")
  = Raise (NameError "template") /\
  outcome (get_xtdcomment_count Sample.registry
             "get_xtdcomment_count as n in blog.story")
  = Raise (NameError "template") /\
  outcome (render_last_xtdcomments Sample.registry
             "render_last_xtdcomments five for blog.story")
  = Raise (NameError "template") /\
  outcome (render_last_xtdcomments Sample.registry
             "render_last_xtdcomments 5 of blog.story")
  = Raise (NameError "template") /\
  outcome (get_last_xtdcomments Sample.registry
             "get_last_xtdcomments five as last for blog.story")
  = Raise (NameError "template") /\
  outcome (get_last_xtdcomments Sample.registry
             "get_last_xtdcomments 5 in last for blog.story")
  = Raise (NameError "template") /\
  outcome (get_last_xtdcomments Sample.registry
             "get_last_xtdcomments 5 as last of blog.story")
  = Raise (NameError "template").
Proof. vm_compute. repeat split. Qed.

(** C3. The claim asks for a TemplateSyntaxError when a content-type token
    is not an app.model pair or names no row of the table. On a token
    without a dot, on one with two dots and on one that names no row,
    [_get_content_types] raises NameError, for the same unbound name. *)
Theorem bad_content_type_raises_NameError :
  _get_content_types Sample.registry ["blogstory"]
  = ([], Raise (NameError "template")) /\
  _get_content_types Sample.registry ["blog.story.draft"]
  = ([], Raise (NameError "template")) /\
  _get_content_types Sample.registry ["blog.nope"]
  = ([ContentTypeGet "blog" "nope"], Raise (NameError "template")).
Proof. vm_compute. repeat split. Qed.

(** C6. The claim asks for a syntax error whose message names the keyword
    expected; for a second token of get_xtdcomment_count that is not 'as',
    a message saying that it must be 'as'. The exception raised there is the
    NameError, which carries no such message, and the message written at
    that place in the code says 'for'. *)
Theorem second_argument_message :
  outcome (get_xtdcomment_count Sample.registry
             "get_xtdcomment_count xx n for blog.story")
  = Raise (NameError "template") /\
  outcome (msg_2nd_argument
             (Py.split "get_xtdcomment_count xx n for blog.story"))
  = Ok "2nd. argument in 'get_xtdcomment_count' tag must be 'for'".
Proof. vm_compute. split; reflexivity. Qed.

(** ** Rendering *)

Lemma Context_getitem_setitem (key k : string) (v : value) (ctx : Context) :
  Context_getitem key (Context_setitem k v ctx)
  = if decide (k = key) then Some v else Context_getitem key ctx.
Proof.
  unfold Context_getitem, Context_setitem. simpl.
  rewrite lookup_insert. destruct (decide (k = key)); reflexivity.
Qed.

(** C9. Rendering a node of class XtdCommentCountNode or
    GetLastXtdCommentsNode returns the empty string and leaves every entry
    of the context other than the one named by the node's as_varname as it
    was: the innermost dictionary has the same value or absence of value at
    every other key, the dictionaries below it are the same, and so reading
    any other key from the context gives what it gave before. *)
Theorem render_changes_only_as_varname
    (w : World) (node : AnyNode) (as_varname key : string) (context : Context) :
  as_varname_of node = Some as_varname ->
  key <> as_varname ->
  exists context',
    render w node context = Ok (EmptyString, context') /\
    ctx_top context' !! key = ctx_top context !! key /\
    ctx_below context' = ctx_below context /\
    Context_getitem key context' = Context_getitem key context.
Proof.
  intros Hvar Hkey.
  destruct node as [n | n | n]; simpl in Hvar; [| discriminate |];
    injection Hvar as <-; eexists; (split; [reflexivity |]);
    rewrite Context_getitem_setitem; simpl;
    (rewrite lookup_insert_ne by congruence);
    (rewrite decide_False by congruence); auto.
Qed.

Lemma render_changes_only_as_varname_witness :
  exists context',
    render Sample.world
      (CountNode (mkXtdCommentCountNode "n" (mkQuerySet [Sample.story] None)))
      Sample.context
    = Ok (EmptyString, context') /\
    ctx_top context' !! "user" = ctx_top Sample.context !! "user" /\
    ctx_below context' = ctx_below Sample.context /\
    Context_getitem "user" context' = Context_getitem "user" Sample.context.
Proof.
  apply (render_changes_only_as_varname Sample.world
           (CountNode (mkXtdCommentCountNode "n" (mkQuerySet [Sample.story] None)))
           "n" "user" Sample.context).
  - reflexivity.
  - discriminate.
Defined.

(** ** The rows of a queryset *)

#[global] Instance more_recent_total : Total more_recent.
Proof. intros a b. unfold more_recent. lia. Qed.

#[global] Instance more_recent_trans : Transitive more_recent.
Proof. intros a b c. unfold more_recent. lia. Qed.

Lemma QuerySet_iter_unsliced (db : list XtdComment) (cts : list ContentType) :
  QuerySet_iter db (for_content_types cts) = most_recent_first (matching cts db).
Proof. reflexivity. Qed.

Lemma QuerySet_iter_sliced (db : list XtdComment) (cts : list ContentType) (n : Z) :
  QuerySet_iter db (mkQuerySet cts (Some n))
  = take (Z.to_nat n) (most_recent_first (matching cts db)).
Proof. reflexivity. Qed.

Lemma most_recent_first_length (cs : list XtdComment) :
  length (most_recent_first cs) = length cs.
Proof. apply Permutation_length, merge_sort_Permutation. Qed.

(** The first [n] rows of the comments put most recent first are their
    last [n]. *)
Lemma take_most_recent_last_comments (n : Z) (cs : list XtdComment) :
  last_comments n cs (take (Z.to_nat n) (most_recent_first cs)).
Proof.
  exists (drop (Z.to_nat n) (most_recent_first cs)).
  pose proof (StronglySorted_merge_sort more_recent cs) as HS.
  fold (most_recent_first cs) in HS.
  rewrite <- (take_drop (Z.to_nat n) (most_recent_first cs)) in HS.
  repeat split.
  - rewrite take_drop. apply merge_sort_Permutation.
  - rewrite length_take, most_recent_first_length. reflexivity.
  - apply StronglySorted_Sorted. eapply StronglySorted_app_1_l. exact HS.
  - intros c c' Hc Hc'. eapply StronglySorted_app_1_elem_of; eauto.
Qed.

Lemma slice_to_Ok (cts : list ContentType) (n : Z) (qs : QuerySet) :
  QuerySet_slice_to (for_content_types cts) n = Ok qs ->
  (0 <= n)%Z /\ qs = mkQuerySet cts (Some n).
Proof.
  unfold QuerySet_slice_to. destruct (Z.ltb_spec n 0); [discriminate |].
  intros [= <-]. split; [lia | reflexivity].
Qed.

(** C1. When get_xtdcomment_count has compiled an invocation, the
    invocation reads [tag as V for T1 ... Tk] with every Ti naming a
    content type, and rendering the node, in any context and on any state
    of the comment table, returns the empty string and leaves the context
    with V bound to the number of comments of the table whose content type
    is among those named. *)
Theorem get_xtdcomment_count_render
    (registry : gmap (string * string) Z) (contents : string)
    (log : list OrmQuery) (node : XtdCommentCountNode) :
  get_xtdcomment_count registry contents = (log, Ok node) ->
  exists tag as_varname ct_tokens content_types,
    Py.split contents = tag :: "as" :: as_varname :: "for" :: ct_tokens /\
    Forall2 (names registry) ct_tokens content_types /\
    forall (w : World) (context : Context),
    exists context',
      render w node context = Ok (EmptyString, context') /\
      Context_getitem as_varname context'
      = Some (VInt (Z.of_nat (length (matching content_types (comments w))))).
Proof.
  rewrite get_xtdcomment_count_shape. unfold count_shape.
  destruct (Py.split contents) as [| t0 [| t1 [| v [| t3 cts]]]];
    try discriminate;
    destruct (String.eqb_spec t1 "as") as [-> |]; try discriminate.
  destruct (String.eqb_spec t3 "for") as [-> |]; try discriminate.
  intros H. apply bind_Ok_inv in H as (l1 & content_types & l2 & Hct & Hret & _).
  injection Hret as _ <-.
  apply get_content_types_Ok_inv in Hct as [_ HF].
  exists t0, v, cts, content_types. repeat split; [exact HF |].
  intros w context. eexists. split; [reflexivity |].
  rewrite Context_getitem_setitem, decide_True by reflexivity.
  simpl. unfold QuerySet_count.
  rewrite QuerySet_iter_unsliced, most_recent_first_length. reflexivity.
Qed.

Lemma get_xtdcomment_count_render_witness :
  exists tag as_varname ct_tokens content_types,
    Py.split "get_xtdcomment_count as n for blog.story blog.quote"
    = tag :: "as" :: as_varname :: "for" :: ct_tokens /\
    Forall2 (names Sample.registry) ct_tokens content_types /\
    forall (w : World) (context : Context),
    exists context',
      render w (mkXtdCommentCountNode "n"
                  (mkQuerySet [Sample.story; Sample.quote] None)) context
      = Ok (EmptyString, context') /\
      Context_getitem as_varname context'
      = Some (VInt (Z.of_nat (length (matching content_types (comments w))))).
Proof.
  apply (get_xtdcomment_count_render Sample.registry
           "get_xtdcomment_count as n for blog.story blog.quote"
           [ContentTypeGet "blog" "story"; ContentTypeGet "blog" "quote"]).
  vm_compute. reflexivity.
Defined.

Example count_on_sample :
  render Sample.world
    (mkXtdCommentCountNode "n" (mkQuerySet [Sample.story; Sample.quote] None))
    Sample.context
  = Ok (EmptyString, Context_setitem "n" (VInt 3) Sample.context).
Proof. vm_compute. reflexivity. Qed.

(** C5. When get_last_xtdcomments has compiled an invocation, the
    invocation reads [tag N as V for T1 ... Tk] with N a count that is not
    negative and every Ti naming a content type. Rendering the node, in any
    context, returns the empty string and leaves V bound to a queryset
    which, run on any state of the comment table, yields at most N rows:
    the last N comments with one of the content types named, most recent
    first. *)
Theorem get_last_xtdcomments_render
    (registry : gmap (string * string) Z) (contents : string)
    (log : list OrmQuery) (node : GetLastXtdCommentsNode) :
  get_last_xtdcomments registry contents = (log, Ok node) ->
  exists tag count_token N V ct_tokens content_types qs,
    Py.split contents = tag :: count_token :: "as" :: V :: "for" :: ct_tokens /\
    Py.int count_token = Ok N /\
    (0 <= N)%Z /\
    Forall2 (names registry) ct_tokens content_types /\
    (forall (w : World) (context : Context),
     exists context',
       render w node context = Ok (EmptyString, context') /\
       Context_getitem V context' = Some (VQuerySet qs)) /\
    forall db : list XtdComment,
      length (QuerySet_iter db qs) <= Z.to_nat N /\
      last_comments N (matching content_types db) (QuerySet_iter db qs).
Proof.
  rewrite get_last_xtdcomments_shape. unfold get_last_shape, count_token_shape.
  destruct (Py.split contents) as [| t0 [| t1 [| t2 [| v [| t4 cts]]]]];
    try discriminate;
    (destruct (Py.int t1) as [n | e] eqn:Hint; [rewrite bind_ret_l | discriminate]);
    try discriminate;
    destruct (String.eqb_spec t2 "as") as [-> |]; try discriminate.
  destruct (String.eqb_spec t4 "for") as [-> |]; try discriminate.
  intros H. apply bind_Ok_inv in H as (l1 & content_types & l2 & Hct & Hinit & _).
  apply get_content_types_Ok_inv in Hct as [_ HF].
  unfold lift, GetLastXtdCommentsNode_init, BaseLastXtdCommentsNode_init in Hinit.
  destruct (QuerySet_slice_to (for_content_types content_types) n) as [qs | e] eqn:Hqs;
    [| discriminate].
  injection Hinit as _ <-. apply slice_to_Ok in Hqs as [Hn ->].
  exists t0, t1, n, v, cts, content_types, (mkQuerySet content_types (Some n)).
  repeat split; try assumption.
  - intros w context. eexists. split; [reflexivity |].
    rewrite Context_getitem_setitem, decide_True by reflexivity. reflexivity.
  - rewrite QuerySet_iter_sliced, length_take. lia.
  - rewrite QuerySet_iter_sliced. apply take_most_recent_last_comments.
Qed.

Lemma get_last_xtdcomments_render_witness :
  exists tag count_token N V ct_tokens content_types qs,
    Py.split "get_last_xtdcomments 2 as last for blog.story blog.quote"
    = tag :: count_token :: "as" :: V :: "for" :: ct_tokens /\
    Py.int count_token = Ok N /\
    (0 <= N)%Z /\
    Forall2 (names Sample.registry) ct_tokens content_types /\
    (forall (w : World) (context : Context),
     exists context',
       render w (mkGetLastXtdCommentsNode
                   (mkQuerySet [Sample.story; Sample.quote] (Some 2%Z)) "last")
         context
       = Ok (EmptyString, context') /\
       Context_getitem V context' = Some (VQuerySet qs)) /\
    forall db : list XtdComment,
      length (QuerySet_iter db qs) <= Z.to_nat N /\
      last_comments N (matching content_types db) (QuerySet_iter db qs).
Proof.
  apply (get_last_xtdcomments_render Sample.registry
           "get_last_xtdcomments 2 as last for blog.story blog.quote"
           [ContentTypeGet "blog" "story"; ContentTypeGet "blog" "quote"]).
  vm_compute. reflexivity.
Defined.

Example last_two_on_sample :
  QuerySet_iter (comments Sample.world)
    (mkQuerySet [Sample.story; Sample.quote] (Some 2%Z))
  = [Sample.c4; Sample.c2].
Proof. vm_compute. reflexivity. Qed.

(** A negative count is an integer for [int] and gets past the checks of
    the tag; the slice of the queryset then fails, after the lookups. *)
Example negative_count :
  get_last_xtdcomments Sample.registry
    "get_last_xtdcomments -1 as last for blog.story"
  = ([ContentTypeGet "blog" "story"], Raise AssertionError).
Proof. vm_compute. reflexivity. Qed.

(** The loop of the render method appends what each row renders to. *)
Lemma render_loop_all (w : World) (context : Context)
    (rows : list XtdComment) (strs : list string) :
  Forall2 (fun c s =>
             render_to_string (templates w) (template_search_list c)
               {[ "comment" := VComment c ]} context = Ok s) rows strs ->
  forall strlist, render_loop w context rows strlist = Ok (strlist ++ strs).
Proof.
  induction 1 as [| c s rows strs Hc _ IH]; intros strlist; simpl.
  - rewrite app_nil_r. reflexivity.
  - rewrite Hc, IH, <- app_assoc. reflexivity.
Qed.

(** A row whose template cannot be rendered ends the loop with the
    exception of that row. *)
Lemma render_loop_raise (w : World) (context : Context)
    (before : list XtdComment) (c : XtdComment) (after : list XtdComment)
    (strs : list string) (e : exn) :
  Forall2 (fun c s =>
             render_to_string (templates w) (template_search_list c)
               {[ "comment" := VComment c ]} context = Ok s) before strs ->
  render_to_string (templates w) (template_search_list c)
    {[ "comment" := VComment c ]} context = Raise e ->
  forall strlist, render_loop w context (before ++ c :: after) strlist = Raise e.
Proof.
  intros HF Hc. induction HF as [| c0 s rows strs0 Hc0 _ IH]; intros strlist; simpl.
  - rewrite Hc. reflexivity.
  - rewrite Hc0. apply IH.
Qed.

(** C4. When render_last_xtdcomments has compiled an invocation, the
    invocation reads [tag N for T1 ... Tk] with N a count that is not
    negative and every Ti naming a content type. Rendering the node on a
    state of the comment table goes through the rows of the queryset, which
    are the last N comments with one of the content types named; when the
    template loader renders each row, looked up under the three names
    app/model, app and generic in this order and given the row as
    [comment], the render method returns the strings so obtained put
    together in the order of the rows, and leaves the context as it was. *)
Theorem render_last_xtdcomments_render
    (registry : gmap (string * string) Z) (contents : string)
    (log : list OrmQuery) (node : RenderLastXtdCommentsNode) :
  render_last_xtdcomments registry contents = (log, Ok node) ->
  exists tag count_token N ct_tokens content_types,
    Py.split contents = tag :: count_token :: "for" :: ct_tokens /\
    Py.int count_token = Ok N /\
    (0 <= N)%Z /\
    Forall2 (names registry) ct_tokens content_types /\
    forall (w : World) (context : Context),
    exists rows,
      rows = QuerySet_iter (comments w) (render_qs node) /\
      last_comments N (matching content_types (comments w)) rows /\
      forall strs : list string,
        Forall2
          (fun c s =>
             render_to_string (templates w)
               [ "django_comments_xtd/" +:+ app_label (content_type c) +:+ "/"
                   +:+ model (content_type c) +:+ "/comment.html";
                 "django_comments_xtd/" +:+ app_label (content_type c)
                   +:+ "/comment.html";
                 "django_comments_xtd/comment.html" ]
               {[ "comment" := VComment c ]} context = Ok s)
          rows strs ->
        render w node context = Ok (foldr String.append EmptyString strs, context).
Proof.
  rewrite render_last_xtdcomments_shape.
  unfold render_last_shape, count_token_shape.
  destruct (Py.split contents) as [| t0 [| t1 [| t2 cts]]];
    try discriminate;
    (destruct (Py.int t1) as [n | e] eqn:Hint; [rewrite bind_ret_l | discriminate]);
    try discriminate.
  destruct (String.eqb_spec t2 "for") as [-> |]; try discriminate.
  intros H. apply bind_Ok_inv in H as (l1 & content_types & l2 & Hct & Hinit & _).
  apply get_content_types_Ok_inv in Hct as [_ HF].
  unfold lift, RenderLastXtdCommentsNode_init, BaseLastXtdCommentsNode_init in Hinit.
  destruct (QuerySet_slice_to (for_content_types content_types) n) as [qs | e] eqn:Hqs;
    [| discriminate].
  injection Hinit as _ <-. apply slice_to_Ok in Hqs as [Hn ->].
  exists t0, t1, n, cts, content_types.
  repeat split; try assumption.
  intros w context. eexists. split; [reflexivity |]. split.
  - simpl render_qs. rewrite QuerySet_iter_sliced.
    apply take_most_recent_last_comments.
  - intros strs Hstrs.
    unfold render, RenderLastXtdCommentsNode_render.
    rewrite (render_loop_all w context _ strs Hstrs []). reflexivity.
Qed.

Lemma render_last_xtdcomments_render_witness :
  render_last_xtdcomments Sample.registry
    "render_last_xtdcomments 2 for blog.story blog.quote"
  = ([ContentTypeGet "blog" "story"; ContentTypeGet "blog" "quote"],
     Ok (mkRenderLastXtdCommentsNode
           (mkQuerySet [Sample.story; Sample.quote] (Some 2%Z)))) /\
  render Sample.world
    (mkRenderLastXtdCommentsNode
       (mkQuerySet [Sample.story; Sample.quote] (Some 2%Z)))
    Sample.context
  = Ok ("story:fourth;generic:second;", Sample.context).
Proof.
  assert (Hparse :
    render_last_xtdcomments Sample.registry
      "render_last_xtdcomments 2 for blog.story blog.quote"
    = ([ContentTypeGet "blog" "story"; ContentTypeGet "blog" "quote"],
       Ok (mkRenderLastXtdCommentsNode
             (mkQuerySet [Sample.story; Sample.quote] (Some 2%Z))))).
  { vm_compute. reflexivity. }
  split; [exact Hparse |].
  destruct (render_last_xtdcomments_render _ _ _ _ Hparse)
    as (tag & count_token & N & ct_tokens & content_types & _ & _ & _ & _ & H).
  destruct (H Sample.world Sample.context) as (rows & -> & _ & Hrender).
  apply (Hrender ["story:fourth;"; "generic:second;"]).
  vm_compute. repeat constructor.
Defined.

(** Without a template under any of the three names the render method
    raises what the loader raises. *)
Example render_without_template :
  render (mkWorld [Sample.c1] ∅)
    (mkRenderLastXtdCommentsNode (mkQuerySet [Sample.story] (Some 1%Z)))
    Sample.context
  = Raise (TemplateDoesNotExist
             [ "django_comments_xtd/blog/story/comment.html";
               "django_comments_xtd/blog/comment.html";
               "django_comments_xtd/comment.html" ]).
Proof. vm_compute. reflexivity. Qed.

(** ** Further properties of the compilation functions *)

Lemma names_functional registry token ct ct' :
  names registry token ct -> names registry token ct' -> ct = ct'.
Proof.
  intros [Hs Hr] [Hs' Hr']. destruct ct as [pk a m], ct' as [pk' a' m'].
  simpl in *. rewrite Hs in Hs'. injection Hs' as <- <-.
  rewrite Hr in Hr'. injection Hr' as <-. reflexivity.
Qed.

Lemma names_valid registry token ct :
  names registry token ct -> valid_token registry token = true.
Proof.
  intros [Hs Hr]. unfold valid_token. rewrite Hs. simpl.
  apply bool_decide_eq_true_2. eauto.
Qed.

Lemma get_content_types_names registry tokens cts :
  Forall2 (names registry) tokens cts ->
  _get_content_types registry tokens = (flat_map token_queries tokens, Ok cts).
Proof.
  intros HF.
  assert (Hv : Forall (fun t => valid_token registry t = true) tokens).
  { induction HF; constructor; eauto using names_valid. }
  destruct (get_content_types_valid registry tokens Hv) as (cts' & E & HF').
  rewrite E. do 2 f_equal.
  clear E Hv. revert cts' HF'.
  induction HF as [| t c ts cs Hn _ IH]; intros cts' HF'; inversion HF'; subst.
  - reflexivity.
  - f_equal; [eapply names_functional; eauto | apply IH; assumption].
Qed.

(** X1. An invocation of get_xtdcomment_count that reads
    [tag as V for T1 ... Tk], every Ti naming a content type, is compiled
    into the node with variable name V over those content types; one lookup
    per content-type token is made, in the order of the tokens. *)
Theorem well_formed_count_compiles
    (registry : gmap (string * string) Z) (contents : string)
    (tag V : string) (ct_tokens : list string) (content_types : list ContentType) :
  Py.split contents = tag :: "as" :: V :: "for" :: ct_tokens ->
  Forall2 (names registry) ct_tokens content_types ->
  compile TagGetXtdcommentCount registry contents
  = (flat_map token_queries ct_tokens, Ok (count_node V content_types)).
Proof.
  intros Hs HF. unfold compile. rewrite get_xtdcomment_count_shape, Hs.
  unfold count_shape. simpl String.eqb. cbv iota.
  rewrite (get_content_types_names _ _ _ HF), !bind_Ok. simpl.
  rewrite !app_nil_r. reflexivity.
Qed.

Lemma well_formed_count_compiles_witness :
  compile TagGetXtdcommentCount Sample.registry
    "get_xtdcomment_count as n for blog.quote blog.story"
  = (flat_map token_queries ["blog.quote"; "blog.story"],
     Ok (count_node "n" [Sample.quote; Sample.story])).
Proof.
  apply (well_formed_count_compiles Sample.registry
           "get_xtdcomment_count as n for blog.quote blog.story"
           "get_xtdcomment_count" "n" ["blog.quote"; "blog.story"]
           [Sample.quote; Sample.story]).
  - reflexivity.
  - repeat constructor.
Defined.

(** X2. An invocation of render_last_xtdcomments that reads
    [tag N for T1 ... Tk], N an integer that is not negative and every Ti
    naming a content type, is compiled into the node over those content
    types limited to N, after one lookup per content-type token. *)
Theorem well_formed_render_last_compiles
    (registry : gmap (string * string) Z) (contents : string)
    (tag count_token : string) (N : Z)
    (ct_tokens : list string) (content_types : list ContentType) :
  Py.split contents = tag :: count_token :: "for" :: ct_tokens ->
  Py.int count_token = Ok N ->
  (0 <= N)%Z ->
  Forall2 (names registry) ct_tokens content_types ->
  compile TagRenderLastXtdcomments registry contents
  = (flat_map token_queries ct_tokens, Ok (render_last_node N content_types)).
Proof.
  intros Hs Hint HN HF. unfold compile.
  rewrite render_last_xtdcomments_shape, Hs.
  unfold render_last_shape, count_token_shape. rewrite Hint, bind_ret_l.
  simpl String.eqb. cbv iota.
  rewrite (get_content_types_names _ _ _ HF), !bind_Ok.
  unfold lift, RenderLastXtdCommentsNode_init, BaseLastXtdCommentsNode_init,
    QuerySet_slice_to.
  destruct (Z.ltb_spec N 0); [lia |]. simpl. rewrite !app_nil_r. reflexivity.
Qed.

Lemma well_formed_render_last_compiles_witness :
  compile TagRenderLastXtdcomments Sample.registry
    "render_last_xtdcomments +3 for blog.story"
  = (flat_map token_queries ["blog.story"],
     Ok (render_last_node 3 [Sample.story])).
Proof.
  apply (well_formed_render_last_compiles Sample.registry
           "render_last_xtdcomments +3 for blog.story"
           "render_last_xtdcomments" "+3" 3 ["blog.story"] [Sample.story]).
  - reflexivity.
  - reflexivity.
  - lia.
  - repeat constructor.
Defined.

(** X3. An invocation of get_last_xtdcomments that reads
    [tag N as V for T1 ... Tk], N an integer that is not negative and
    every Ti naming a content type, is compiled into the node with variable
    name V over those content types limited to N, after one lookup per
    content-type token. *)
Theorem well_formed_get_last_compiles
    (registry : gmap (string * string) Z) (contents : string)
    (tag count_token V : string) (N : Z)
    (ct_tokens : list string) (content_types : list ContentType) :
  Py.split contents = tag :: count_token :: "as" :: V :: "for" :: ct_tokens ->
  Py.int count_token = Ok N ->
  (0 <= N)%Z ->
  Forall2 (names registry) ct_tokens content_types ->
  compile TagGetLastXtdcomments registry contents
  = (flat_map token_queries ct_tokens, Ok (get_last_node N V content_types)).
Proof.
  intros Hs Hint HN HF. unfold compile.
  rewrite get_last_xtdcomments_shape, Hs.
  unfold get_last_shape, count_token_shape. rewrite Hint, bind_ret_l.
  simpl String.eqb. cbv iota.
  rewrite (get_content_types_names _ _ _ HF), !bind_Ok.
  unfold lift, GetLastXtdCommentsNode_init, BaseLastXtdCommentsNode_init,
    QuerySet_slice_to.
  destruct (Z.ltb_spec N 0); [lia |]. simpl. rewrite !app_nil_r. reflexivity.
Qed.

Lemma well_formed_get_last_compiles_witness :
  compile TagGetLastXtdcomments Sample.registry
    "get_last_xtdcomments 0 as last for blog.story blog.story"
  = (flat_map token_queries ["blog.story"; "blog.story"],
     Ok (get_last_node 0 "last" [Sample.story; Sample.story])).
Proof.
  apply (well_formed_get_last_compiles Sample.registry
           "get_last_xtdcomments 0 as last for blog.story blog.story"
           "get_last_xtdcomments" "0" "last" 0
           ["blog.story"; "blog.story"] [Sample.story; Sample.story]).
  - reflexivity.
  - reflexivity.
  - lia.
  - repeat constructor.
Defined.

(** X4. Whatever the invocation, a compilation function ends in one of four
    ways: with a node, with the NameError of the name [template], with an
    IndexError, or (the two tags with a count only) with an AssertionError.
    A TemplateSyntaxError, the ValueError of [int] or of the unpacking, and
    ContentType.DoesNotExist never come out of it. *)
Theorem compile_outcomes
    (registry : gmap (string * string) Z) (tag : Tag) (contents : string) :
  allowed_outcome tag (outcome (compile tag registry contents)).
Proof.
  destruct tag; unfold compile.
  - rewrite get_xtdcomment_count_shape. unfold count_shape.
    destruct (Py.split contents) as [| t0 [| t1 [| v [| t3 cts]]]];
      try exact I;
      destruct (String.eqb t1 "as"); try exact I; try reflexivity.
    destruct (String.eqb t3 "for"); try reflexivity.
    rewrite (surjective_Parse (_get_content_types registry cts)).
    destruct (get_content_types_outcome registry cts) as [[c E] | E];
      rewrite E; [exact I | reflexivity].
  - rewrite render_last_xtdcomments_shape.
    unfold render_last_shape, count_token_shape.
    destruct (Py.split contents) as [| t0 [| t1 [| t2 cts]]];
      try exact I;
      (destruct (Py.int t1) as [n | e]; [rewrite bind_ret_l | reflexivity]);
      try exact I.
    destruct (String.eqb t2 "for"); try reflexivity.
    rewrite (surjective_Parse (_get_content_types registry cts)).
    destruct (get_content_types_outcome registry cts) as [[c E] | E];
      rewrite E; [| reflexivity].
    rewrite !bind_Ok. unfold RenderLastXtdCommentsNode_init,
      BaseLastXtdCommentsNode_init, QuerySet_slice_to.
    destruct (n <? 0)%Z; simpl; [discriminate | exact I].
  - rewrite get_last_xtdcomments_shape.
    unfold get_last_shape, count_token_shape.
    destruct (Py.split contents) as [| t0 [| t1 [| t2 [| v [| t4 cts]]]]];
      try exact I;
      (destruct (Py.int t1) as [n | e]; [rewrite bind_ret_l | reflexivity]);
      try exact I;
      destruct (String.eqb t2 "as"); try exact I; try reflexivity.
    destruct (String.eqb t4 "for"); try reflexivity.
    rewrite (surjective_Parse (_get_content_types registry cts)).
    destruct (get_content_types_outcome registry cts) as [[c E] | E];
      rewrite E; [| reflexivity].
    rewrite !bind_Ok. unfold GetLastXtdCommentsNode_init,
      BaseLastXtdCommentsNode_init, QuerySet_slice_to.
    destruct (n <? 0)%Z; simpl; [discriminate | exact I].
Qed.

Lemma wrong_head_head_ok (tag : Tag) (tokens : list string) :
  wrong_head tag tokens = true -> head_ok tag tokens = false.
Proof.
  assert (Hkw : forall i kw, is_wrong_keyword_at tokens i kw = true ->
                             is_keyword_at tokens i kw = false).
  { intros i kw. unfold is_wrong_keyword_at, is_keyword_at.
    destruct (tokens !! i) as [t |]; [| discriminate].
    apply negb_true_iff. }
  assert (Hcount : forall i, is_not_count_at tokens i = true ->
                             is_count_at tokens i = false).
  { intros i. unfold is_not_count_at, is_count_at.
    destruct (tokens !! i) as [t |]; [| discriminate].
    intros H. rewrite (has_not_int_char_int t H). reflexivity. }
  destruct tag; unfold wrong_head, head_ok; intros H.
  - apply orb_true_iff in H as [H | H]; rewrite (Hkw _ _ H);
      [reflexivity | apply andb_false_r].
  - apply orb_true_iff in H as [H | H];
      [rewrite (Hcount _ H); reflexivity | rewrite (Hkw _ _ H); apply andb_false_r].
  - apply orb_true_iff in H as [H | H];
      [apply orb_true_iff in H as [H | H] |].
    + rewrite (Hcount _ H). reflexivity.
    + rewrite (Hkw _ _ H), andb_false_r. reflexivity.
    + rewrite (Hkw _ _ H). apply andb_false_r.
Qed.

(** X5. When one of the keywords of an invocation is there and is not the
    one looked for, or the count is there and has an ASCII character that
    is no digit, no sign and no underscore, then, whatever the other tokens
    are and however many follow, the compilation ends with the NameError of
    the name [template] before any content type is looked up. *)
Theorem wrong_count_or_keyword_before_lookup
    (registry : gmap (string * string) Z) (tag : Tag) (contents : string) :
  wrong_head tag (Py.split contents) = true ->
  queries (compile tag registry contents) = [] /\
  outcome (compile tag registry contents) = Raise (NameError "template").
Proof.
  intros H. apply wrong_head_head_ok in H.
  rewrite (wrong_head_NameError registry tag contents H).
  split; reflexivity.
Qed.

Lemma wrong_count_or_keyword_before_lookup_witness :
  queries (compile TagGetLastXtdcomments Sample.registry
             "get_last_xtdcomments 5 as last in blog.story blog.quote") = [] /\
  outcome (compile TagGetLastXtdcomments Sample.registry
             "get_last_xtdcomments 5 as last in blog.story blog.quote")
  = Raise (NameError "template").
Proof.
  apply (wrong_count_or_keyword_before_lookup Sample.registry
           TagGetLastXtdcomments
           "get_last_xtdcomments 5 as last in blog.story blog.quote").
  reflexivity.
Defined.

(** X6. A count that [int] reads as a negative number passes the checks of
    render_last_xtdcomments and get_last_xtdcomments. With the keywords
    right and every content-type token naming a content type, all the
    lookups are made and the compilation then fails with the AssertionError
    of the queryset slice; no node is returned. *)
Theorem negative_count_AssertionError
    (registry : gmap (string * string) Z) (tag : Tag) (contents : string)
    (count_token : string) (N : Z) (ct_tokens : list string) :
  reads_last_tag tag (Py.split contents) count_token ct_tokens ->
  Py.int count_token = Ok N ->
  (N < 0)%Z ->
  Forall (fun t => valid_token registry t = true) ct_tokens ->
  compile tag registry contents
  = (flat_map token_queries ct_tokens, Raise AssertionError).
Proof.
  intros Hshape Hint HN Hvalid.
  destruct (get_content_types_valid registry ct_tokens Hvalid) as (cts & E & _).
  destruct tag; simpl in Hshape; [contradiction | |]; unfold compile.
  - destruct Hshape as [t0 Hs].
    rewrite render_last_xtdcomments_shape, Hs.
    unfold render_last_shape, count_token_shape. rewrite Hint, bind_ret_l.
    simpl String.eqb. cbv iota. rewrite E, !bind_Ok.
    unfold lift, RenderLastXtdCommentsNode_init, BaseLastXtdCommentsNode_init,
      QuerySet_slice_to.
    destruct (Z.ltb_spec N 0); [| lia]. simpl. rewrite !app_nil_r. reflexivity.
  - destruct Hshape as (t0 & V & Hs).
    rewrite get_last_xtdcomments_shape, Hs.
    unfold get_last_shape, count_token_shape. rewrite Hint, bind_ret_l.
    simpl String.eqb. cbv iota. rewrite E, !bind_Ok.
    unfold lift, GetLastXtdCommentsNode_init, BaseLastXtdCommentsNode_init,
      QuerySet_slice_to.
    destruct (Z.ltb_spec N 0); [| lia]. simpl. rewrite !app_nil_r. reflexivity.
Qed.

Lemma negative_count_AssertionError_witness :
  compile TagRenderLastXtdcomments Sample.registry
    "render_last_xtdcomments -2 for blog.story blog.quote"
  = (flat_map token_queries ["blog.story"; "blog.quote"], Raise AssertionError).
Proof.
  apply (negative_count_AssertionError Sample.registry TagRenderLastXtdcomments
           "render_last_xtdcomments -2 for blog.story blog.quote"
           "-2" (-2) ["blog.story"; "blog.quote"]).
  - exists "render_last_xtdcomments". reflexivity.
  - reflexivity.
  - lia.
  - repeat constructor.
Defined.

(** ** The loop of _get_content_types, taken apart *)

Lemma bind_assoc {A B C : Type} (m : Parse A) (k : A -> Parse B) (h : B -> Parse C) :
  bind (bind m k) h = bind m (fun a => bind (k a) h).
Proof.
  destruct m as [l [a | e]]; [| reflexivity].
  unfold bind at 2 3. destruct (k a) as [l' [b | e]]; simpl.
  - destruct (h b) as [l'' r]. rewrite app_assoc. reflexivity.
  - reflexivity.
Qed.

Lemma bind_ret_r {A} (m : Parse A) : bind m ret = m.
Proof. destruct m as [l [a | e]]; simpl; [rewrite app_nil_r |]; reflexivity. Qed.

Lemma get_content_types_loop_acc registry tokens :
  forall acc,
    get_content_types_loop registry tokens acc
    = bind (get_content_types_loop registry tokens []) (fun c => ret (acc ++ c)).
Proof.
  induction tokens as [| t ts IH]; intros acc; cbn [get_content_types_loop].
  - rewrite bind_ret_l, app_nil_r. reflexivity.
  - rewrite bind_assoc. apply bind_ext. intros ct.
    change ([] ++ [ct]) with [ct].
    rewrite (IH (acc ++ [ct])), (IH [ct]), bind_assoc.
    apply bind_ext. intros c. rewrite bind_ret_l, <- app_assoc. reflexivity.
Qed.

Lemma get_content_types_loop_app registry xs ys :
  forall acc,
    get_content_types_loop registry (xs ++ ys) acc
    = bind (get_content_types_loop registry xs acc)
        (fun cx => get_content_types_loop registry ys cx).
Proof.
  induction xs as [| t ts IH]; intros acc; cbn [get_content_types_loop app].
  - rewrite bind_ret_l. reflexivity.
  - rewrite bind_assoc. apply bind_ext. intros ct. apply IH.
Qed.

(** X7. The content types of two lists of tokens put end to end are those
    of the first list followed by those of the second, found by the
    lookups of the first and then, unless the first list failed, those of
    the second; a failure in either list is the failure of the whole. *)
Theorem get_content_types_app
    (registry : gmap (string * string) Z) (xs ys : list string) :
  _get_content_types registry (xs ++ ys)
  = (cx <- _get_content_types registry xs ;;
     cy <- _get_content_types registry ys ;;
     ret (cx ++ cy)).
Proof.
  unfold _get_content_types. rewrite get_content_types_loop_app.
  apply bind_ext. intros cx. apply get_content_types_loop_acc.
Qed.

(** ** A larger content-type table *)

Lemma names_weaken (registry registry' : gmap (string * string) Z) token ct :
  registry ⊆ registry' -> names registry token ct -> names registry' token ct.
Proof.
  intros Hsub [Hs Hr]. split; [exact Hs |].
  eapply lookup_weaken; eauto.
Qed.

Lemma get_content_types_weaken (registry registry' : gmap (string * string) Z)
    tokens l cts :
  registry ⊆ registry' ->
  _get_content_types registry tokens = (l, Ok cts) ->
  _get_content_types registry' tokens = (l, Ok cts).
Proof.
  intros Hsub E.
  pose proof (get_content_types_Ok_inv registry tokens l cts E) as [_ HF].
  rewrite (get_content_types_names registry tokens cts HF) in E.
  injection E as <-.
  apply get_content_types_names.
  eapply Forall2_impl; [exact HF |]. intros t c. apply names_weaken, Hsub.
Qed.

Lemma bind_get_content_types_weaken {A : Type}
    (registry registry' : gmap (string * string) Z) (tokens : list string)
    (k : list ContentType -> Parse A) log (a : A) :
  registry ⊆ registry' ->
  bind (_get_content_types registry tokens) k = (log, Ok a) ->
  bind (_get_content_types registry' tokens) k = (log, Ok a).
Proof.
  intros Hsub H.
  apply bind_Ok_inv in H as (l1 & cts & l2 & E & Hk & ->).
  rewrite (get_content_types_weaken _ _ _ _ _ Hsub E), bind_Ok, Hk.
  reflexivity.
Qed.

Lemma bind_Ok_mono {A B : Type} (m : Parse A) (k k' : A -> Parse B) log (b : B) :
  (forall a l, k a = (l, Ok b) -> k' a = (l, Ok b)) ->
  bind m k = (log, Ok b) -> bind m k' = (log, Ok b).
Proof.
  intros Hk H. apply bind_Ok_inv in H as (l1 & a & l2 & -> & Hka & ->).
  rewrite bind_Ok, (Hk _ _ Hka). reflexivity.
Qed.

(** X8. Rows added to the content-type table do not change what compiles:
    an invocation compiled into a node on a table is compiled into the
    same node, with the same lookups, on every table that has the rows of
    the first one and more. *)
Theorem compile_larger_registry
    (registry registry' : gmap (string * string) Z) (tag : Tag)
    (contents : string) (log : list OrmQuery) (node : AnyNode) :
  registry ⊆ registry' ->
  compile tag registry contents = (log, Ok node) ->
  compile tag registry' contents = (log, Ok node).
Proof.
  intros Hsub. destruct tag; unfold compile.
  - rewrite !get_xtdcomment_count_shape. unfold count_shape.
    destruct (Py.split contents) as [| t0 [| t1 [| v [| t3 cts]]]];
      try (intros; assumption);
      destruct (String.eqb t1 "as"); try (intros; assumption).
    destruct (String.eqb t3 "for"); try (intros; assumption).
    rewrite !bind_assoc. apply bind_get_content_types_weaken, Hsub.
  - rewrite !render_last_xtdcomments_shape. unfold render_last_shape.
    rewrite !bind_assoc. apply bind_Ok_mono. intros count l.
    destruct (Py.split contents) as [| t0 [| t1 [| t2 cts]]];
      try (intros; assumption).
    destruct (String.eqb t2 "for"); try (intros; assumption).
    rewrite !bind_assoc. apply bind_get_content_types_weaken, Hsub.
  - rewrite !get_last_xtdcomments_shape. unfold get_last_shape.
    rewrite !bind_assoc. apply bind_Ok_mono. intros count l.
    destruct (Py.split contents) as [| t0 [| t1 [| t2 [| v [| t4 cts]]]]];
      try (intros; assumption);
      destruct (String.eqb t2 "as"); try (intros; assumption).
    destruct (String.eqb t4 "for"); try (intros; assumption).
    rewrite !bind_assoc. apply bind_get_content_types_weaken, Hsub.
Qed.

Lemma compile_larger_registry_witness :
  compile TagGetXtdcommentCount
    (<[("flatpages", "flatpage") := 3%Z]> Sample.registry)
    "get_xtdcomment_count as n for blog.story"
  = ([ContentTypeGet "blog" "story"], Ok (count_node "n" [Sample.story])).
Proof.
  apply (compile_larger_registry Sample.registry
           (<[("flatpages", "flatpage") := 3%Z]> Sample.registry)
           TagGetXtdcommentCount "get_xtdcomment_count as n for blog.story").
  - apply insert_subseteq. vm_compute. reflexivity.
  - vm_compute. reflexivity.
Defined.

(** X9. The two messages of [_get_content_types] read the name [tagname],
    which the function neither takes as a parameter nor assigns and which
    is not a name of the module: building either message raises NameError,
    whatever the token. *)
Theorem content_type_messages_unbound_tagname (token app mdl : string) :
  msg_bad_format token = raise (NameError "tagname") /\
  msg_non_existant app mdl = raise (NameError "tagname").
Proof.
  assert (H : load_global "tagname" = raise (NameError "tagname")).
  { unfold load_global. rewrite bool_decide_eq_false_2; [reflexivity |].
    apply (bool_decide_unpack _). vm_compute. exact I. }
  unfold msg_bad_format, msg_non_existant. rewrite H. split; reflexivity.
Qed.

(** ** Further properties of rendering *)

(** X10. When the queryset of a RenderLastXtdCommentsNode has no row, because
    the count is zero or because no comment of the table has one of the
    content types, rendering returns the empty string and the context as it
    was, and no template is asked for: it does so whatever templates
    exist. *)
Theorem render_last_no_rows
    (w : World) (content_types : list ContentType) (N : Z) (context : Context) :
  N = 0%Z \/ matching content_types (comments w) = [] ->
  render w (mkRenderLastXtdCommentsNode (mkQuerySet content_types (Some N))) context
  = Ok (EmptyString, context).
Proof.
  intros H. unfold render, RenderLastXtdCommentsNode_render. simpl render_qs.
  rewrite QuerySet_iter_sliced.
  assert (E : take (Z.to_nat N) (most_recent_first (matching content_types (comments w))) = []).
  { destruct H as [-> | ->]; [reflexivity | apply take_nil]. }
  rewrite E. reflexivity.
Qed.

Lemma render_last_no_rows_witness :
  render (mkWorld (comments Sample.world) ∅)
    (mkRenderLastXtdCommentsNode (mkQuerySet [Sample.story] (Some 0%Z)))
    Sample.context
  = Ok (EmptyString, Sample.context).
Proof.
  apply (render_last_no_rows (mkWorld (comments Sample.world) ∅)
           [Sample.story] 0 Sample.context).
  left. reflexivity.
Defined.

(** X11. When the template loader raises for one of the rows and has
    rendered all the rows before it, the render method of a
    RenderLastXtdCommentsNode raises the same exception: what the earlier
    rows rendered to is not returned, and the rows after it are not
    rendered. *)
Theorem render_last_raises
    (w : World) (node : RenderLastXtdCommentsNode) (context : Context)
    (before : list XtdComment) (c : XtdComment) (after : list XtdComment)
    (strs : list string) (e : exn) :
  QuerySet_iter (comments w) (render_qs node) = before ++ c :: after ->
  Forall2 (fun c s =>
             render_to_string (templates w) (template_search_list c)
               {[ "comment" := VComment c ]} context = Ok s) before strs ->
  render_to_string (templates w) (template_search_list c)
    {[ "comment" := VComment c ]} context = Raise e ->
  render w node context = Raise e.
Proof.
  intros Hrows Hbefore Hc. unfold render, RenderLastXtdCommentsNode_render.
  rewrite Hrows, (render_loop_raise w context before c after strs e Hbefore Hc).
  reflexivity.
Qed.

Lemma render_last_raises_witness :
  render
    (mkWorld (comments Sample.world)
       (<["django_comments_xtd/blog/story/comment.html"
          := Sample.body_template "story:"]> ∅))
    (mkRenderLastXtdCommentsNode
       (mkQuerySet [Sample.story; Sample.quote] (Some 2%Z)))
    Sample.context
  = Raise (TemplateDoesNotExist
             [ "django_comments_xtd/blog/quote/comment.html";
               "django_comments_xtd/blog/comment.html";
               "django_comments_xtd/comment.html" ]).
Proof.
  apply (render_last_raises _ _ Sample.context
           [Sample.c4] Sample.c2 [] ["story:fourth;"]).
  - vm_compute. reflexivity.
  - vm_compute. repeat constructor.
  - vm_compute. reflexivity.
Defined.

(** X12. Rendering a node of class XtdCommentCountNode or
    GetLastXtdCommentsNode a second time, on the same comment table and in
    the context the first rendering left, changes nothing more: it returns
    the empty string and that same context. *)
Theorem render_again_same_context
    (w : World) (node : AnyNode) (as_varname : string)
    (context context1 : Context) (s : string) :
  as_varname_of node = Some as_varname ->
  render w node context = Ok (s, context1) ->
  render w node context1 = Ok (s, context1).
Proof.
  intros Hvar H.
  destruct node as [n | n | n]; simpl in Hvar; [| discriminate |].
  - cbv [render AnyNode_render XtdCommentCountNode_render Context_setitem] in *.
    injection H as <- <-. simpl. rewrite insert_insert_eq. reflexivity.
  - cbv [render AnyNode_render GetLastXtdCommentsNode_render Context_setitem] in *.
    injection H as <- <-. simpl. rewrite insert_insert_eq. reflexivity.
Qed.

Lemma render_again_same_context_witness :
  render Sample.world (count_node "n" [Sample.story; Sample.quote])
    (Context_setitem "n" (VInt 3) Sample.context)
  = Ok (EmptyString, Context_setitem "n" (VInt 3) Sample.context).
Proof.
  apply (render_again_same_context Sample.world
           (count_node "n" [Sample.story; Sample.quote]) "n" Sample.context).
  - reflexivity.
  - vm_compute. reflexivity.
Defined.

(** ** The tokens of an invocation *)

Lemma no_space_snoc (cur : string) (c : ascii) :
  no_space cur = true -> Py.is_space c = false ->
  is_token (cur +:+ String c EmptyString) = true.
Proof.
  intros Hcur Hc. induction cur as [| a cur IH]; simpl in *.
  - rewrite Hc. reflexivity.
  - apply andb_true_iff in Hcur as [Ha Hcur]. rewrite Ha. simpl.
    specialize (IH Hcur). destruct (cur +:+ String c EmptyString); [discriminate | exact IH].
Qed.

Lemma is_token_no_space (s : string) : is_token s = true -> no_space s = true.
Proof. destruct s; [discriminate | auto]. Qed.

Lemma flush_tokens (cur : string) :
  no_space cur = true -> Forall (fun t => is_token t = true) (Py.flush cur).
Proof. destruct cur; intros H; repeat constructor. exact H. Qed.

Lemma split_go_tokens (s : string) :
  forall cur, no_space cur = true ->
    Forall (fun t => is_token t = true) (Py.split_go cur s).
Proof.
  induction s as [| c s IH]; intros cur Hcur; simpl.
  - apply flush_tokens, Hcur.
  - destruct (Py.is_space c) eqn:Hc.
    + apply Forall_app. split; [apply flush_tokens, Hcur | apply IH; reflexivity].
    + apply IH, is_token_no_space, no_space_snoc; assumption.
Qed.

Lemma split_tokens (s : string) : Forall (fun t => is_token t = true) (Py.split s).
Proof. apply split_go_tokens. reflexivity. Qed.

(** X13. Every token the compilation functions work on is a non-empty
    string without whitespace; so the variable name of a compiled
    XtdCommentCountNode or GetLastXtdCommentsNode, under which the render
    method writes to the context, is never empty and holds no
    whitespace. *)
Theorem as_varname_is_token
    (registry : gmap (string * string) Z) (tag : Tag) (contents : string)
    (log : list OrmQuery) (node : AnyNode) (as_varname : string) :
  compile tag registry contents = (log, Ok node) ->
  as_varname_of node = Some as_varname ->
  as_varname ∈ Py.split contents /\ is_token as_varname = true.
Proof.
  intros Hc Hv.
  assert (Hin : as_varname ∈ Py.split contents).
  { destruct tag; unfold compile in Hc.
    - rewrite get_xtdcomment_count_shape in Hc. unfold count_shape in Hc.
      destruct (Py.split contents) as [| t0 [| t1 [| v [| t3 cts]]]];
        try discriminate;
        destruct (String.eqb t1 "as"); try discriminate.
      destruct (String.eqb t3 "for"); try discriminate.
      rewrite bind_assoc in Hc.
      apply bind_Ok_inv in Hc as (l1 & c & l2 & _ & Hk & _).
      rewrite bind_ret_l in Hk. injection Hk as _ <-.
      injection Hv as <-. simpl. set_solver.
    - rewrite render_last_xtdcomments_shape in Hc.
      apply bind_Ok_inv in Hc as (l1 & n & l2 & _ & Hk & _).
      injection Hk as _ <-. discriminate.
    - rewrite get_last_xtdcomments_shape in Hc. unfold get_last_shape in Hc.
      rewrite bind_assoc in Hc.
      apply bind_Ok_inv in Hc as (l0 & count & l0' & _ & Hc & _).
      destruct (Py.split contents) as [| t0 [| t1 [| t2 [| v [| t4 cts]]]]];
        try discriminate;
        destruct (String.eqb t2 "as"); try discriminate.
      destruct (String.eqb t4 "for"); try discriminate.
      rewrite bind_assoc in Hc.
      apply bind_Ok_inv in Hc as (l1 & c & l2 & _ & Hk & _).
      unfold lift, GetLastXtdCommentsNode_init in Hk.
      destruct (BaseLastXtdCommentsNode_init count c); [| discriminate].
      injection Hk as _ <-. injection Hv as <-. simpl. set_solver. }
  split; [exact Hin |].
  pose proof (split_tokens contents) as HF.
  rewrite Forall_forall in HF. apply HF, Hin.
Qed.

Lemma as_varname_is_token_witness :
  "last" ∈ Py.split "get_last_xtdcomments 2 as last for blog.story" /\
  is_token "last" = true.
Proof.
  apply (as_varname_is_token Sample.registry TagGetLastXtdcomments
           "get_last_xtdcomments 2 as last for blog.story"
           [ContentTypeGet "blog" "story"]
           (get_last_node 2 "last" [Sample.story]) "last").
  - vm_compute. reflexivity.
  - reflexivity.
Defined.

(** ** Dots in a content-type token *)

Lemma split_on_length (sep : ascii) (s : string) :
  length (Py.split_on sep s) = S (count_char sep s).
Proof.
  induction s as [| c s IH]; simpl; [reflexivity |].
  destruct (Ascii.eqb c sep); simpl.
  - rewrite IH. reflexivity.
  - destruct (Py.split_on sep s) as [| part parts]; simpl in *; [discriminate | exact IH].
Qed.

(** X14. A content-type token leads to a lookup in the content-type table
    exactly when it has one dot, and then to one lookup, for the text
    before the dot as application label and the text after it as model
    (either may be empty). A token with no dot or with more than one is
    turned down without any lookup. *)
Theorem one_dot_one_lookup
    (registry : gmap (string * string) Z) (token : string) :
  if Nat.eqb (count_char "." token) 1
  then exists app mdl,
         token = app +:+ "." +:+ mdl /\
         queries (content_type_of_token registry token) = [ContentTypeGet app mdl]
  else content_type_of_token registry token = ([], Raise (NameError "template")).
Proof.
  pose proof (split_on_length "." token) as Hlen.
  destruct (Nat.eqb_spec (count_char "." token) 1) as [H1 | H1].
  - rewrite H1 in Hlen.
    destruct (Py.split_on "." token) as [| app [| mdl [| x parts]]] eqn:Hs;
      try discriminate.
    exists app, mdl. split; [apply split_on_two; exact Hs |].
    destruct (valid_token registry token) eqn:Hv.
    + destruct (content_type_of_token_valid registry token Hv) as (ct & E & _).
      rewrite E. unfold token_queries. rewrite Hs. reflexivity.
    + rewrite (content_type_of_token_invalid registry token Hv).
      unfold token_queries. rewrite Hs. reflexivity.
  - assert (Hv : valid_token registry token = false).
    { unfold valid_token.
      destruct (Py.split_on "." token) as [| app [| mdl [| x parts]]];
        simpl in *; try reflexivity. lia. }
    rewrite (content_type_of_token_invalid registry token Hv).
    unfold token_queries.
    destruct (Py.split_on "." token) as [| app [| mdl [| x parts]]];
      simpl in *; try reflexivity. lia.
Qed.

Example dot_at_the_end :
  content_type_of_token Sample.registry "blog."
  = ([ContentTypeGet "blog" EmptyString], Raise (NameError "template")).
Proof. vm_compute. reflexivity. Qed.

(** ** Content types given more than once or in another order *)

Lemma matching_same_keys (cts cts' : list ContentType) (db : list XtdComment) :
  (forall pk, pk ∈ ct_pk <$> cts <-> pk ∈ ct_pk <$> cts') ->
  matching cts db = matching cts' db.
Proof.
  intros H. unfold matching. apply list_filter_iff. intros c.
  unfold content_type_in. rewrite !bool_decide_spec. apply H.
Qed.

(** X15. The count that an XtdCommentCountNode writes to the context depends
    on which content types are given, not on how often or in which order:
    two nodes with the same variable name whose lists of content types have
    the same primary keys render alike on every comment table and in every
    context. *)
Theorem count_ignores_order_and_repeats
    (cts cts' : list ContentType) (as_varname : string)
    (w : World) (context : Context) :
  (forall pk, pk ∈ ct_pk <$> cts <-> pk ∈ ct_pk <$> cts') ->
  render w (XtdCommentCountNode_init as_varname cts) context
  = render w (XtdCommentCountNode_init as_varname cts') context.
Proof.
  intros H.
  cbv [render XtdCommentCountNode_render XtdCommentCountNode_init
       count_as_varname count_qs QuerySet_count].
  rewrite !QuerySet_iter_unsliced, !most_recent_first_length,
    (matching_same_keys cts cts' _ H).
  reflexivity.
Qed.

Lemma count_ignores_order_and_repeats_witness :
  render Sample.world
    (XtdCommentCountNode_init "n" [Sample.story; Sample.quote; Sample.story])
    Sample.context
  = render Sample.world
      (XtdCommentCountNode_init "n" [Sample.quote; Sample.story])
      Sample.context.
Proof.
  apply (count_ignores_order_and_repeats
           [Sample.story; Sample.quote; Sample.story]
           [Sample.quote; Sample.story] "n" Sample.world Sample.context).
  intros pk. simpl. rewrite !elem_of_cons, !elem_of_nil. tauto.
Defined.

(** X16. In an invocation of render_last_xtdcomments or get_last_xtdcomments
    whose keywords are right and whose content-type tokens all name content
    types, a count written with one to 4300 decimal digits and nothing else
    is accepted: [int] reads it as a number that is not negative, the slice
    of the queryset does not fail, and a node is returned after one lookup
    per content-type token. *)
Theorem digits_count_compiles
    (registry : gmap (string * string) Z) (tag : Tag) (contents : string)
    (count_token : string) (ct_tokens : list string)
    (content_types : list ContentType) :
  reads_last_tag tag (Py.split contents) count_token ct_tokens ->
  plain_digits count_token = true ->
  Forall2 (names registry) ct_tokens content_types ->
  exists (N : Z) (node : AnyNode),
    Py.int count_token = Ok N /\
    (0 <= N)%Z /\
    compile tag registry contents = (flat_map token_queries ct_tokens, Ok node).
Proof.
  intros Hshape Hdigits HF.
  assert (Hne : count_token <> EmptyString).
  { intros ->. discriminate Hdigits. }
  destruct (int_all_digits count_token Hne (plain_digits_all_digits _ Hdigits))
    as (N & Hint & HN).
  exists N.
  destruct tag; simpl in Hshape; [contradiction | |]; unfold compile.
  - destruct Hshape as [t0 Hs]. eexists. split; [exact Hint |]. split; [exact HN |].
    rewrite render_last_xtdcomments_shape, Hs.
    unfold render_last_shape, count_token_shape. rewrite Hint, bind_ret_l.
    simpl String.eqb. cbv iota.
    rewrite (get_content_types_names _ _ _ HF), !bind_Ok.
    unfold lift, RenderLastXtdCommentsNode_init, BaseLastXtdCommentsNode_init,
      QuerySet_slice_to.
    destruct (Z.ltb_spec N 0); [lia |]. simpl. rewrite !app_nil_r. reflexivity.
  - destruct Hshape as (t0 & V & Hs).
    eexists. split; [exact Hint |]. split; [exact HN |].
    rewrite get_last_xtdcomments_shape, Hs.
    unfold get_last_shape, count_token_shape. rewrite Hint, bind_ret_l.
    simpl String.eqb. cbv iota.
    rewrite (get_content_types_names _ _ _ HF), !bind_Ok.
    unfold lift, GetLastXtdCommentsNode_init, BaseLastXtdCommentsNode_init,
      QuerySet_slice_to.
    destruct (Z.ltb_spec N 0); [lia |]. simpl. rewrite !app_nil_r. reflexivity.
Qed.

Lemma digits_count_compiles_witness :
  exists (N : Z) (node : AnyNode),
    Py.int "007" = Ok N /\
    (0 <= N)%Z /\
    compile TagGetLastXtdcomments Sample.registry
      "get_last_xtdcomments 007 as last for blog.quote"
    = (flat_map token_queries ["blog.quote"], Ok node).
Proof.
  apply (digits_count_compiles Sample.registry TagGetLastXtdcomments
           "get_last_xtdcomments 007 as last for blog.quote"
           "007" ["blog.quote"] [Sample.quote]).
  - exists "get_last_xtdcomments", "last". reflexivity.
  - reflexivity.
  - repeat constructor.
Defined.

(** ** Joining tokens and splitting them again *)

Lemma append_cons (c : ascii) (s t : string) :
  String c s +:+ t = String c (s +:+ t).
Proof. reflexivity. Qed.

Lemma append_snoc (cur : string) (c : ascii) (t : string) :
  (cur +:+ String c EmptyString) +:+ t = cur +:+ String c t.
Proof.
  induction cur as [| a cur IH]; [reflexivity |].
  rewrite !append_cons, IH. reflexivity.
Qed.

Lemma split_go_token (t : string) :
  no_space t = true ->
  forall cur rest,
    Py.split_go cur (t +:+ rest) = Py.split_go (cur +:+ t) rest.
Proof.
  induction t as [| c t IH]; intros Ht cur rest.
  - rewrite append_empty_r. reflexivity.
  - simpl in Ht. apply andb_true_iff in Ht as [Hc Ht].
    apply negb_true_iff in Hc.
    rewrite append_cons. cbn [Py.split_go]. rewrite Hc, (IH Ht), append_snoc.
    reflexivity.
Qed.

Lemma flush_token (t : string) : is_token t = true -> Py.flush t = [t].
Proof. destruct t; [discriminate | reflexivity]. Qed.

Lemma ascii_token_is_token (t : string) : ascii_token t = true -> is_token t = true.
Proof.
  assert (H : forall s, all_ascii_chars s = true -> no_space s = true).
  { induction s as [| c s IH]; simpl; [reflexivity |].
    intros Hs. apply andb_true_iff in Hs as [Hc Hs].
    unfold ascii_char in Hc. apply andb_true_iff in Hc as [_ Hc].
    rewrite Hc, (IH Hs). reflexivity. }
  destruct t as [| c t]; [discriminate |]. apply H.
Qed.

(** X17. Splitting undoes joining: tokens made of ASCII characters, not
    empty and without whitespace, written one after the other with a space
    in between, are split into those same tokens; so the compilation
    functions see the tokens of an invocation written in this way one for
    one. *)
Theorem split_join_space (tokens : list string) :
  Forall (fun t => ascii_token t = true) tokens ->
  Py.split (join_space tokens) = tokens.
Proof.
  intros Hascii.
  assert (Htok : Forall (fun t => is_token t = true) tokens).
  { eapply Forall_impl; [exact Hascii |]. intros t. apply ascii_token_is_token. }
  clear Hascii.
  unfold Py.split. induction Htok as [| t ts Ht Hts IH]; [reflexivity |].
  destruct ts as [| t' ts'].
  - cbn [join_space].
    rewrite <- (append_empty_r t) at 1.
    rewrite (split_go_token t (is_token_no_space t Ht)).
    cbn [Py.split_go]. change (EmptyString +:+ t) with t.
    apply flush_token, Ht.
  - change (join_space (t :: t' :: ts'))
      with (t +:+ String " " (join_space (t' :: ts'))).
    rewrite (split_go_token t (is_token_no_space t Ht)).
    cbn [Py.split_go String.append].
    change (Py.is_space " ") with true. cbv iota.
    change (EmptyString +:+ t) with t.
    rewrite (flush_token t Ht), IH. reflexivity.
Qed.

Lemma split_join_space_witness :
  Py.split (join_space ["get_xtdcomment_count"; "as"; "n"; "for"; "a.b"])
  = ["get_xtdcomment_count"; "as"; "n"; "for"; "a.b"].
Proof.
  apply (split_join_space ["get_xtdcomment_count"; "as"; "n"; "for"; "a.b"]).
  repeat constructor.
Defined.

(** X18. Whatever the tokens, [_get_content_types] looks content types up
    in the order of the tokens and no token more than once: the lookups it
    makes are an initial part of the lookups of the tokens taken one by
    one, and there are at most as many as there are tokens. *)
Theorem get_content_types_lookups
    (registry : gmap (string * string) Z) (tokens : list string) :
  queries (_get_content_types registry tokens)
    `prefix_of` flat_map token_queries tokens /\
  length (queries (_get_content_types registry tokens)) <= length tokens.
Proof.
  assert (Hlen : forall ts : list string,
            length (flat_map token_queries ts) <= length ts).
  { induction ts as [| t ts IH]; simpl; [lia |].
    rewrite length_app. unfold token_queries at 1.
    destruct (Py.unpack2 (Py.split_on "." t)) as [[a m] | e]; simpl; lia. }
  destruct (valid_or_first_invalid registry tokens)
    as [H | (pre & bad & rest & -> & Hpre & Hbad)].
  - destruct (get_content_types_valid registry tokens H) as (cts & E & _).
    rewrite E. simpl. split; [reflexivity | apply Hlen].
  - rewrite (get_content_types_abort registry pre bad rest Hpre Hbad). simpl.
    split.
    + rewrite !flat_map_app. apply prefix_app. simpl.
      rewrite app_nil_r. apply prefix_app_r. reflexivity.
    + etransitivity; [apply Hlen |]. rewrite !length_app. simpl. lia.
Qed.
